(** * landing.py: a landing page of buttons, from JSON or CSV descriptions

    Shallow embedding of [landing.py] and the properties of its
    specification.  The Python functions keep their names.  Library code
    the program calls but does not contain (the [csv] and [json] parsers,
    the Jinja2 template engine) is taken as a parameter of the
    development; the file system is an explicit state. *)

From Stdlib Require Import ZArith Ascii String List Numbers.DecimalString.
From stdpp Require Import base option list gmap strings.

(** ** Python values, as far as the program observes them *)

(** A value found in a button record.  The program only ever tests such a
    value for truth ([if width], [color or ...]) and formats it with
    [str()] inside an f-string.  [POpaque] is any other object (a float, a
    list, a nested object) seen through exactly these two observations. *)
Inductive pyval :=
  | PNone
  | PBool (b : bool)
  | PInt (z : Z)
  | PStr (s : string)
  | POpaque (truth : bool) (shown : string).

(** [bool(v)] *)
Definition truthy (v : pyval) : bool :=
  match v with
  | PNone => false
  | PBool b => b
  | PInt z => negb (Z.eqb z 0)
  | PStr s => negb (String.eqb s "")
  | POpaque t _ => t
  end.

(** [str(v)], which is what [f"{v}"] inserts. *)
Definition py_str (v : pyval) : string :=
  match v with
  | PNone => "None"
  | PBool true => "True"
  | PBool false => "False"
  | PInt z => NilZero.string_of_int (Z.to_int z)
  | PStr s => s
  | POpaque _ s => s
  end.

(** An element of the tuple of links: a button record (a [dict]) or
    anything else a JSON array can hold.  [None], the fill value of
    [grouper], is [IVal PNone]. *)
Inductive item :=
  | IDict (d : gmap string pyval)
  | IVal (v : pyval).

(** [bool(x)] for an element: an empty [dict] is false. *)
Definition item_truthy (x : item) : bool :=
  match x with
  | IDict d => negb (bool_decide (d = ∅))
  | IVal v => truthy v
  end.

(** ** Exceptions *)

(** The Python exceptions the program can end with.  [LibraryError] is an
    exception raised inside one of the libraries ([csv.Error],
    [json.JSONDecodeError], a Jinja2 template error).  [OutOfFuel] is not a
    Python exception: it marks a loop of the model that reached its bound
    on the number of passes; [grouper_total] shows it never happens. *)

Inductive exn :=
  | NotImplementedError (msg : string)
  | FileNotFoundError (path : string)
  | NotADirectoryError (path : string)
  | IsADirectoryError (path : string)
  | OverflowError
  | IndexError
  | AttributeError
  | TypeError
  | AssertionError
  | LibraryError (what : string)
  | OutOfFuel.

Inductive result (A : Type) :=
  | Ok (a : A)
  | Raise (e : exn).
Arguments Ok {A} a.
Arguments Raise {A} e.

Global Instance result_ret : MRet result := λ A a, Ok a.
Global Instance result_bind : MBind result := λ A B k r,
  match r with
  | Ok a => k a
  | Raise e => Raise e
  end.

(** ** Command line *)

(** The [argparse.Namespace] returned by [parse_cli]. *)
Record Namespace := {
  infiles : list string;
  button_width : Z;
  button_height : Z;
  button_color : string;
  hover_button_color : string;
  max_button_per_line : Z;
  fontsize : Z;
  outdir : string;
  template_dir : string
}.

(** [parse_cli] when only the input files are given. *)
Definition parse_cli_defaults (files : list string) : Namespace :=
  {| infiles := files;
     button_width := 220;
     button_height := 100;
     button_color := "DarkOrange";
     hover_button_color := "Orange";
     max_button_per_line := 2;
     fontsize := 20;
     outdir := "out/";
     template_dir := "templates/" |}.

(** ** Button renderer *)

(** The double quote character, written inside the f-strings. *)
Definition dq : string := String "034"%char EmptyString.

(** [''.join(l)] *)
Definition join_empty (l : list string) : string := String.concat "" l.

Definition convert_link_to_html
    (text icon url width fontsize color hovered_color : pyval)
    (defaults : Namespace) : string :=
  let style : list string :=
    if truthy width || truthy fontsize || truthy color then
      (if truthy width then ["width: " +:+ py_str width +:+ "px;"] else [])
      ++ (if truthy fontsize then ["font-size: " +:+ py_str fontsize +:+ "px;"] else [])
      ++ (if truthy color then ["background-color: " +:+ py_str color +:+ ";"] else [])
    else [] in
  let style : string :=
    match style with
    | [] => ""
    | _ :: _ => " style=" +:+ dq +:+ join_empty style +:+ dq
    end in
  let style : string :=
    if truthy hovered_color then
      (style +:+ (" onMouseOver=this.style.backgroundColor=" +:+ dq
                    +:+ py_str hovered_color +:+ dq))
      +:+ (" onMouseOut=this.style.backgroundColor=" +:+ dq
             +:+ (if truthy color then py_str color else button_color defaults)
             +:+ dq)
    else style in
  "<a href=" +:+ dq +:+ py_str url +:+ dq +:+ "><button class=" +:+ dq +:+ "btn"
    +:+ dq +:+ " " +:+ style +:+ "> <i class=" +:+ dq +:+ "fa-solid fa-"
    +:+ py_str icon +:+ dq +:+ "></i> &nbsp; " +:+ py_str text
    +:+ " </button></a>".

(** [data.get(key, default)] *)
Definition get (data : gmap string pyval) (key : string) (dflt : pyval) : pyval :=
  default dflt (data !! key).

Definition json_repr_to_html (data : gmap string pyval) (defaults : Namespace) : string :=
  convert_link_to_html
    (get data "text" (PStr ""))
    (get data "fa icon" (PStr "home"))
    (get data "url" (PStr "/"))
    (get data "button width" PNone)
    (get data "fontsize" PNone)
    (get data "color" PNone)
    (get data "hovered color" PNone)
    defaults.

(** ** Grid formatter *)

(** The least value of a [Py_ssize_t], [-2^63]. *)
Definition ssize_min : Z := (-9223372036854775808)%Z.

Section grouper.
Context {A : Type}.

(** A position of [args] in [grouper].  [[iter(iterable)] * n] holds [n]
    references to one and the same iterator object, so every [Shared]
    position draws from the single list of remaining elements;
    [zip_longest] replaces a position by [repeat(fillvalue)] ([Filler])
    when it finds it exhausted. *)
Inductive slot := Shared | Filler.

(** One pass of the [for i, iterator in enumerate(iterators)] loop of
    [itertools.zip_longest] (as given in the Python documentation).
    [it] is what remains of the shared iterator.  [None] is the [return]
    taken when [num_active] reaches zero; otherwise the values of the
    tuple, the updated positions, the rest of the shared iterator and
    [num_active]. *)
Fixpoint zip_longest_pass (fillvalue : A) (iterators : list slot)
    (it : list A) (num_active : nat)
    : option (list A * list slot * list A * nat) :=
  match iterators with
  | [] => Some ([], [], it, num_active)
  | Shared :: iterators' =>
      match it with
      | value :: it' =>
          '(values, its, rest, k) ← zip_longest_pass fillvalue iterators' it' num_active;
          Some (value :: values, Shared :: its, rest, k)
      | [] =>
          let num_active := (num_active - 1)%nat in
          if (num_active =? 0)%nat then None
          else
            '(values, its, rest, k) ← zip_longest_pass fillvalue iterators' [] num_active;
            Some (fillvalue :: values, Filler :: its, rest, k)
      end
  | Filler :: iterators' =>
      '(values, its, rest, k) ← zip_longest_pass fillvalue iterators' it num_active;
      Some (fillvalue :: values, Filler :: its, rest, k)
  end.

(** The [while True] loop of [zip_longest]; [fuel] bounds the number of
    passes. *)
Fixpoint zip_longest_loop (fuel : nat) (fillvalue : A) (iterators : list slot)
    (it : list A) (num_active : nat) : result (list (list A)) :=
  match fuel with
  | O => Raise OutOfFuel
  | S fuel' =>
      match zip_longest_pass fillvalue iterators it num_active with
      | None => Ok []
      | Some (values, its, rest, k) =>
          tuples ← zip_longest_loop fuel' fillvalue its rest k;
          Ok (values :: tuples)
      end
  end.

(** [grouper(iterable, n, fillvalue)]: [zip_longest] over [n] references
    to [iter(iterable)].  The repetition [[...] * n] takes [n] as an index
    (a [Py_ssize_t], 64 bits here): below [ssize_min] it raises
    [OverflowError]; from there up to zero the list is empty, and
    [zip_longest] of no iterator yields nothing.  A list of [2^63]
    references or more is beyond any memory: no bound is put on that
    side. *)
Definition grouper (iterable : list A) (n : Z) (fillvalue : A)
    : result (list (list A)) :=
  if (n <? ssize_min)%Z then Raise OverflowError
  else
    let args := replicate (Z.to_nat n) Shared in
    let num_active := length args in
    if (num_active =? 0)%nat then Ok []
    else zip_longest_loop (S (length iterable)) fillvalue args iterable num_active.
End grouper.

(** The line feed of ['\n'.join]. *)
Definition nl : string := String "010"%char EmptyString.

(** [data.get] on an element that is not a [dict] has no attribute [get]. *)
Definition call_json_repr_to_html (args : Namespace) (but_args : item) : result string :=
  match but_args with
  | IDict data => Ok (json_repr_to_html data args)
  | IVal _ => Raise AttributeError
  end.

Definition convert_links_to_html (all_links : list item) (args : Namespace)
    : result string :=
  lines ← grouper all_links (max_button_per_line args) (IVal PNone);
  html ← mapM (λ line_links,
            frags ← mapM (call_json_repr_to_html args)
                         (List.filter item_truthy line_links);
            Ok (String.concat nl frags)) lines;
  Ok (String.concat "<br/>" html).

(** ** File system *)

(** The files (path to content) and the directories the run can see.
    Paths are compared as they are written: a directory is listed under
    each spelling the run uses for it. *)
Record filesystem := {
  files : gmap string string;
  dirs : gset string
}.

(** [os.path.exists(p)] *)
Definition path_exists (fs : filesystem) (p : string) : bool :=
  bool_decide (p ∈ dirs fs) || bool_decide (is_Some (files fs !! p)).

(** [s.endswith(suffix)]: some tail of [s] is [suffix]. *)
Fixpoint endswith (s suffix : string) : bool :=
  String.eqb s suffix ||
  match s with
  | EmptyString => false
  | String _ s' => endswith s' suffix
  end.

(** [os.path.join(a, b)] for a relative [b]. *)
Definition path_join (a b : string) : string :=
  if String.eqb a "" || endswith a "/" then a +:+ b else a +:+ "/" +:+ b.

(** [open(path).read()]: a directory cannot be opened as a file. *)
Definition read_file (fs : filesystem) (path : string) : result string :=
  if bool_decide (path ∈ dirs fs) then Raise (IsADirectoryError path)
  else
    match files fs !! path with
    | Some content => Ok content
    | None => Raise (FileNotFoundError path)
    end.

(** [fd.write(content)] on the file [name] of the directory [dir] *)
Definition put_file (fs : filesystem) (dir name content : string) : filesystem :=
  {| files := <[path_join dir name := content]> (files fs); dirs := dirs fs |}.

(** [open(os.path.join(dir, name), 'w')]: the file is created, or emptied
    when it exists; its directory is never created, and a path that is
    itself a directory cannot be opened. *)
Definition open_write (fs : filesystem) (dir name : string) : result filesystem :=
  if bool_decide (dir ∈ dirs fs) then
    if bool_decide (path_join dir name ∈ dirs fs)
    then Raise (IsADirectoryError (path_join dir name))
    else Ok (put_file fs dir name "")
  else if path_exists fs dir then Raise (NotADirectoryError (path_join dir name))
  else Raise (FileNotFoundError (path_join dir name)).

(** ** Values handed to a template *)

(** [Markup] marks a string as safe HTML; any other string is escaped by a
    template that has autoescape on. *)
Inductive tvalue :=
  | TMarkup (s : string)
  | TStr (s : string)
  | TInt (z : Z).

(** [markupsafe.escape] on a plain string. *)
Fixpoint escape (s : string) : string :=
  match s with
  | EmptyString => EmptyString
  | String c s' =>
      (if Ascii.eqb c "&" then "&amp;"
       else if Ascii.eqb c "<" then "&lt;"
       else if Ascii.eqb c ">" then "&gt;"
       else if Ascii.eqb c "'" then "&#39;"
       else if Ascii.eqb c "034" then "&#34;"
       else String c EmptyString) +:+ escape s'
  end.

(** What a template with autoescape prints for [{{ v }}]. *)
Definition autoescaped (v : tvalue) : string :=
  match v with
  | TMarkup s => s
  | TStr s => escape s
  | TInt z => py_str (PInt z)
  end.

(** What [json.loads] returns, as far as [tuple()] looks at it. *)
Inductive json_value :=
  | JArray (elements : list item)
  | JObject (keys : list string)
  | JString (s : string)
  | JScalar.

(** [tuple(v)]: the elements of an array, the keys of an object, the
    characters of a string; a number, [true], [false] and [null] are not
    iterable. *)
Definition tuple (v : json_value) : result (list item) :=
  match v with
  | JArray elements => Ok elements
  | JObject keys => Ok ((λ k, IVal (PStr k)) <$> keys)
  | JString s => Ok ((λ c, IVal (PStr (String c EmptyString))) <$> list_ascii_of_string s)
  | JScalar => Raise TypeError
  end.

(** [a[i]] on a row of the CSV reader *)
Definition index (a : list string) (i : nat) : result string :=
  match a !! i with
  | Some field => Ok field
  | None => Raise IndexError
  end.

(** The keyword arguments of the first call of [render_template]: the
    markup of the buttons, wrapped in [Markup]. *)
Definition page_variables (html : string) : list (string * tvalue) :=
  [("buttons", TMarkup html)].

(** The keyword arguments of the second call of [render_template]. *)
Definition css_variables (args : Namespace) : list (string * tvalue) :=
  [("button_width", TInt (button_width args));
   ("button_height", TInt (button_height args));
   ("hover_button_color", TStr (hover_button_color args));
   ("button_color", TStr (button_color args))].

(** The library code the program calls: the CSV reader, the JSON parser
    and the template engine. *)
Class Libraries := {
  (** [csv.reader] over the text of a file: the rows it yields and, when it
      stops with an exception instead of reaching the end, that exception. *)
  csv_reader : string → list (list string) * option exn;
  (** [json.loads] *)
  json_loads : string → result json_value;
  (** [jinja2.Template(source, autoescape=select_autoescape())] and
      [template.render(variables)].  The rendering is taken as a function of
      the template and the variables: a template that draws random values
      is outside the model. *)
  template : Type;
  Template : string → result template;
  render : template → list (string * tvalue) → result string
}.

Section landing.
Context `{Libraries}.

(** *** Record loader *)

Definition links_repr_from_file (fs : filesystem) (infile : string)
    : result (list item) :=
  if endswith infile ".csv" then
    content ← read_file fs infile;
    let '(rows, stop) := csv_reader content in
    links ← mapM (λ a,
               text ← index a 0;
               icon ← index a 1;
               url ← index a 2;
               Ok (IDict (<["text" := PStr text]>
                          (<["fa icon" := PStr icon]>
                           (<["url" := PStr url]> ∅))))) rows;
    match stop with
    | Some e => Raise e
    | None => Ok links
    end
  else if endswith infile ".json" then
    content ← read_file fs infile;
    v ← json_loads content;
    tuple v
  else
    Raise (NotImplementedError
             ("Cannot handle file " +:+ infile +:+ " (not a json nor a csv)")).

(** [sum(map(links_repr_from_file, infiles), start)] *)
Fixpoint sum_links (fs : filesystem) (infiles : list string) (start : list item)
    : result (list item) :=
  match infiles with
  | [] => Ok start
  | infile :: infiles' =>
      links ← links_repr_from_file fs infile;
      sum_links fs infiles' (start ++ links)
  end.

(** *** Template writer *)

Definition render_template (template_name template_dir target_dir : string)
    (variables : list (string * tvalue)) (fs : filesystem)
    : result unit * filesystem :=
  if negb (path_exists fs target_dir) then (Raise AssertionError, fs)
  else
    match (source ← read_file fs (path_join template_dir template_name);
           Template source) with
    | Raise e => (Raise e, fs)
    | Ok tpl =>
        match open_write fs target_dir template_name with
        | Raise e => (Raise e, fs)
        | Ok fs' =>
            match render tpl variables with
            | Raise e => (Raise e, fs')
            | Ok text => (Ok (), put_file fs' target_dir template_name text)
            end
        end
    end.

(** *** Entry point *)

(** The body of [if __name__ == '__main__'], after [args = parse_cli()].
    The second call leaves [template_dir] and [target_dir] to the defaults
    of [render_template]. *)
Definition main (args : Namespace) (fs : filesystem) : result unit * filesystem :=
  match sum_links fs (infiles args) [] with
  | Raise e => (Raise e, fs)
  | Ok links =>
      match convert_links_to_html links args with
      | Raise e => (Raise e, fs)
      | Ok html =>
          match render_template "index.html" (template_dir args) (outdir args)
                  (page_variables html) fs with
          | (Raise e, fs') => (Raise e, fs')
          | (Ok _, fs') =>
              render_template "index.css" "templates/" "out/"
                (css_variables args) fs'
          end
      end
  end.
End landing.

(** ** Notions used to state the properties *)

(** [v] appears verbatim in [s]. *)
Definition occurs (v s : string) : Prop :=
  ∃ before after, s = before +:+ v +:+ after.

Fixpoint startswith (s v : string) {struct v} : bool :=
  match v, s with
  | EmptyString, _ => true
  | String c v', String c' s' => Ascii.eqb c c' && startswith s' v'
  | String _ _, EmptyString => false
  end.

(** The decision procedure for [occurs]. *)
Fixpoint contains (s v : string) : bool :=
  startswith s v ||
  match s with
  | EmptyString => false
  | String _ s' => contains s' v
  end.

(** The consecutive groups of at most [n] elements of [l]. *)
Fixpoint chunks_upto {A} (bound n : nat) (l : list A) : list (list A) :=
  match bound, l with
  | S bound', _ :: _ => take n l :: chunks_upto bound' n (drop n l)
  | _, _ => []
  end.

Definition chunks {A} (n : nat) (l : list A) : list (list A) :=
  chunks_upto (length l) n l.

(** A group completed to [n] positions with the fill value. *)
Definition padded {A} (n : nat) (fillvalue : A) (g : list A) : list A :=
  g ++ replicate (n - length g) fillvalue.

(** ceil(a/b) *)
Definition ceil_div (a b : nat) : nat := (a + b - 1) / b.

(** One line of the grid: the fragments of the records of a group that
    are not empty dictionaries, joined by a line feed. *)
Definition line_html (args : Namespace) (g : list (gmap string pyval)) : string :=
  String.concat nl
    ((λ d, json_repr_to_html d args) <$> List.filter (λ d, negb (bool_decide (d = ∅))) g).

(** The anchor and button around an icon and a label, with [attrs] as the
    attributes that follow the class of the button. *)
Definition button_markup (url icon text attrs : string) : string :=
  "<a href=" +:+ dq +:+ url +:+ dq +:+ "><button class=" +:+ dq +:+ "btn"
    +:+ dq +:+ " " +:+ attrs +:+ "> <i class=" +:+ dq +:+ "fa-solid fa-"
    +:+ icon +:+ dq +:+ "></i> &nbsp; " +:+ text +:+ " </button></a>".

(** The mouse-enter and mouse-exit attributes that set the background
    color to [enter] and back to [leave]. *)
Definition mouse_attrs (enter leave : string) : string :=
  " onMouseOver=this.style.backgroundColor=" +:+ dq +:+ enter +:+ dq
  +:+ " onMouseOut=this.style.backgroundColor=" +:+ dq +:+ leave +:+ dq.

(** The declarations of the inline style of a record: one for each of
    width, font size and color that is set. *)
Definition style_decls (width fontsize color : pyval) : list string :=
  (if truthy width then ["width: " +:+ py_str width +:+ "px;"] else [])
  ++ (if truthy fontsize then ["font-size: " +:+ py_str fontsize +:+ "px;"] else [])
  ++ (if truthy color then ["background-color: " +:+ py_str color +:+ ";"] else []).

(** The inline style attribute, absent when nothing is set. *)
Definition style_attr (width fontsize color : pyval) : string :=
  if truthy width || truthy fontsize || truthy color
  then " style=" +:+ dq +:+ join_empty (style_decls width fontsize color) +:+ dq
  else "".

(** The button record of a CSV row whose first fields are [text], [icon], [url]. *)
Definition record_of (text icon url : string) : gmap string pyval :=
  <["text" := PStr text]> (<["fa icon" := PStr icon]> (<["url" := PStr url]> ∅)).

(** [infile] has neither of the two supported extensions. *)
Definition unsupported (infile : string) : Prop :=
  endswith infile ".csv" = false ∧ endswith infile ".json" = false.

(** The JSON text of an array holding the one object with the keys
    [text], [fa icon] and [url]. *)
Definition json_text (text icon url : string) : string :=
  "[{" +:+ dq +:+ "text" +:+ dq +:+ ":" +:+ dq +:+ text +:+ dq +:+ ","
  +:+ dq +:+ "fa icon" +:+ dq +:+ ":" +:+ dq +:+ icon +:+ dq +:+ ","
  +:+ dq +:+ "url" +:+ dq +:+ ":" +:+ dq +:+ url +:+ dq +:+ "}]".

(** An element is a button record, that is a [dict]. *)
Definition is_record (x : item) : bool :=
  match x with
  | IDict _ => true
  | IVal _ => false
  end.

(** What the loop body of [convert_links_to_html] makes of one line. *)
Definition render_line (args : Namespace) (line_links : list item) : result string :=
  frags ← mapM (call_json_repr_to_html args) (List.filter item_truthy line_links);
  Ok (String.concat nl frags).

(** [args] with another value of [--fontsize]. *)
Definition with_fontsize (z : Z) (args : Namespace) : Namespace :=
  {| infiles := infiles args;
     button_width := button_width args;
     button_height := button_height args;
     button_color := button_color args;
     hover_button_color := hover_button_color args;
     max_button_per_line := max_button_per_line args;
     fontsize := z;
     outdir := outdir args;
     template_dir := template_dir args |}.

(** The seven keys [json_repr_to_html] reads. *)
Definition known_keys : list string :=
  ["text"; "fa icon"; "url"; "button width"; "fontsize"; "color"; "hovered color"].

(** ** Stand-ins for the libraries, to run the program on examples *)

Module Demo.
(** The fields of one line, for a text without quote characters. *)
Fixpoint fields (cur line : string) : list string :=
  match line with
  | EmptyString => [cur]
  | String c line' =>
      if Ascii.eqb c "," then cur :: fields "" line'
      else fields (cur +:+ String c EmptyString) line'
  end.

Definition row (line : string) : list string :=
  match line with
  | EmptyString => []
  | _ => fields "" line
  end.

Fixpoint rows (cur text : string) : list (list string) :=
  match text with
  | EmptyString => match cur with EmptyString => [] | _ => [row cur] end
  | String c text' =>
      if Ascii.eqb c "010" then row cur :: rows "" text'
      else rows (cur +:+ String c EmptyString) text'
  end.

(** [csv.reader] on text without quote characters or carriage returns:
    one row for each line, split at the commas; an empty line gives an
    empty row. *)
Definition plain_csv (text : string) : list (list string) * option exn :=
  (rows "" text, None).

(** [json.loads] on the few texts of the examples; any other text is
    refused. *)
Definition few_json (text : string) : result json_value :=
  if String.eqb text (json_text "CV" "home" "https://x")
  then Ok (JArray [IDict (record_of "CV" "home" "https://x")])
  else if String.eqb text "[{}]" then Ok (JArray [IDict ∅])
  else Raise (LibraryError "JSONDecodeError").

(** A template engine that prints the source of the template followed by
    the autoescaped values of the variables. *)
Definition libs : Libraries :=
  {| csv_reader := plain_csv;
     json_loads := few_json;
     template := string;
     Template := λ source, Ok source;
     render := λ tpl variables,
       Ok (tpl +:+ join_empty (autoescaped ∘ snd <$> variables)) |}.

Definition links_repr_from_file := @links_repr_from_file libs.
Definition render_template := @render_template libs.
Definition main := @main libs.

(** A directory tree with the two templates and two empty output
    directories. *)
Definition templates : gmap string string :=
  <["templates/index.html" := "<html>"]> (<["templates/index.css" := "css:"]> ∅).
Definition dirs3 : gset string := {["templates/"; "out/"; "build/"]}.

(** The same tree with one CSV file and one JSON file. *)
Definition fs_links : filesystem :=
  {| files := <["links.csv" := "CV,home,https://x"]>
                (<["links.json" := json_text "CV" "home" "https://x"]> templates);
     dirs := dirs3 |}.

(** The tree without the directory [out/]. *)
Definition fs_no_out : filesystem :=
  {| files := files fs_links; dirs := {["templates/"; "build/"]} |}.

(** [python landing.py links.csv --outdir build/] *)
Definition build_args : Namespace :=
  {| infiles := ["links.csv"];
     button_width := 220;
     button_height := 100;
     button_color := "DarkOrange";
     hover_button_color := "Orange";
     max_button_per_line := 2;
     fontsize := 20;
     outdir := "build/";
     template_dir := "templates/" |}.
End Demo.

(** The same stand-ins with a JSON parser that knows texts which are not
    arrays. *)
Module Shapes.
(** The object with the one key [text]. *)
Definition object_text : string :=
  "{" +:+ dq +:+ "text" +:+ dq +:+ ":" +:+ dq +:+ "CV" +:+ dq +:+ "}".

Definition more_json (text : string) : result json_value :=
  if String.eqb text "null" then Ok JScalar
  else if String.eqb text object_text then Ok (JObject ["text"])
  else Demo.few_json text.

Definition libs : Libraries :=
  {| csv_reader := Demo.plain_csv;
     json_loads := more_json;
     template := string;
     Template := λ source, Ok source;
     render := λ tpl variables,
       Ok (tpl +:+ join_empty (autoescaped ∘ snd <$> variables)) |}.

(** A tree whose JSON file holds [null]. *)
Definition fs_null : filesystem :=
  {| files := <["links.json" := "null"]> Demo.templates; dirs := Demo.dirs3 |}.

(** A tree without the template of the stylesheet. *)
Definition fs_no_css : filesystem :=
  {| files := <["links.csv" := "CV,home,https://x"]>
                (<["templates/index.html" := "<html>"]> ∅);
     dirs := Demo.dirs3 |}.

(** A tree without the directory [build/]. *)
Definition fs_no_build : filesystem :=
  {| files := files Demo.fs_links; dirs := {["templates/"; "out/"]} |}.
End Shapes.

(** * Properties *)

(** ** Strings *)

Lemma append_cons (x : ascii) (a b : string) : String x a +:+ b = String x (a +:+ b).
Proof. reflexivity. Qed.

Lemma append_nil_l (a : string) : "" +:+ a = a.
Proof. reflexivity. Qed.

Lemma append_assoc (a b c : string) : (a +:+ b) +:+ c = a +:+ b +:+ c.
Proof. induction a as [|x a IH]; [done |]. by rewrite !append_cons, IH. Qed.

Lemma append_nil_r (a : string) : a +:+ "" = a.
Proof. induction a as [|x a IH]; [done |]. by rewrite append_cons, IH. Qed.

Lemma length_append (a b : string) :
  String.length (a +:+ b) = String.length a + String.length b.
Proof.
  induction a as [|x a IH]; [done |]. rewrite append_cons. cbn [String.length].
  by rewrite IH.
Qed.

Lemma occurs_intro (before v after s : string) :
  s = before +:+ v +:+ after → occurs v s.
Proof. intros ->. by exists before, after. Qed.

Lemma startswith_append (v after : string) : startswith (v +:+ after) v = true.
Proof.
  induction v as [|c v IH]; [done |].
  rewrite append_cons. simpl. by rewrite Ascii.eqb_refl, IH.
Qed.

Lemma occurs_contains (v s : string) : occurs v s → contains s v = true.
Proof.
  intros (before & after & ->).
  induction before as [|c before IH].
  - rewrite append_nil_l.
    pose proof (startswith_append v after) as H.
    destruct (v +:+ after); simpl; by rewrite H.
  - rewrite append_cons. simpl. rewrite IH. apply orb_true_r.
Qed.

(** ** The grid formatter *)

Section grouper_facts.
Context {A : Type} (fillvalue : A).
Implicit Types (l it : list A) (n k : nat).

Lemma zip_longest_pass_Shared it xs iterators num_active :
  zip_longest_pass fillvalue (replicate (length xs) Shared ++ iterators)
    (xs ++ it) num_active
  = '(values, its, rest, k) ← zip_longest_pass fillvalue iterators it num_active;
    Some (xs ++ values, replicate (length xs) Shared ++ its, rest, k).
Proof.
  induction xs as [|x xs IH]; simpl.
  - destruct (zip_longest_pass fillvalue iterators it num_active)
      as [[[[??]?]?]|]; reflexivity.
  - rewrite IH.
    destruct (zip_longest_pass fillvalue iterators it num_active)
      as [[[[??]?]?]|]; reflexivity.
Qed.

Lemma zip_longest_pass_Filler b it num_active :
  zip_longest_pass fillvalue (replicate b Filler) it num_active
  = Some (replicate b fillvalue, replicate b Filler, it, num_active).
Proof. induction b as [|b IH]; simpl; [done | rewrite IH; reflexivity]. Qed.

(** Exhausted positions become fillers as long as one other position is
    still active. *)
Lemma zip_longest_pass_exhausted m num_active :
  m < num_active →
  zip_longest_pass fillvalue (replicate m Shared) [] num_active
  = Some (replicate m fillvalue, replicate m Filler, [], num_active - m).
Proof.
  revert num_active. induction m as [|m IH]; intros k Hk; simpl.
  - do 2 f_equal. lia.
  - destruct (Nat.eqb_spec (k - 1) 0) as [E|_]; [lia |].
    rewrite IH by lia. simpl. do 2 f_equal. lia.
Qed.

(** A pass that starts on an exhausted iterator with only its own
    references active is the last one. *)
Lemma zip_longest_pass_stop a b :
  zip_longest_pass fillvalue (replicate (S a) Shared ++ replicate b Filler) [] (S a)
  = None.
Proof.
  induction a as [|a IH].
  - done.
  - change (replicate (S (S a)) Shared) with (Shared :: replicate (S a) Shared).
    cbn [app zip_longest_pass].
    replace (S (S a) - 1) with (S a) by lia.
    cbn [Nat.eqb]. by rewrite IH.
Qed.

Lemma zip_longest_pass_full n l num_active :
  n ≤ length l →
  zip_longest_pass fillvalue (replicate n Shared) l num_active
  = Some (take n l, replicate n Shared, drop n l, num_active).
Proof.
  intros Hn.
  rewrite <- (take_drop n l) at 1.
  pose proof (zip_longest_pass_Shared (drop n l) (take n l) [] num_active) as H.
  rewrite length_take_le, !app_nil_r in H by done.
  rewrite H. simpl. by rewrite !app_nil_r.
Qed.

Lemma zip_longest_pass_short n l :
  0 < length l < n →
  zip_longest_pass fillvalue (replicate n Shared) l n
  = Some (padded n fillvalue l,
          replicate (length l) Shared ++ replicate (n - length l) Filler,
          [], length l).
Proof.
  intros Hl.
  replace n with (length l + (n - length l)) at 1 by lia.
  rewrite replicate_add.
  pose proof (zip_longest_pass_Shared [] l (replicate (n - length l) Shared) n) as H.
  rewrite app_nil_r in H. rewrite H.
  rewrite zip_longest_pass_exhausted by lia. simpl.
  unfold padded. do 2 f_equal. lia.
Qed.

Lemma zip_longest_loop_chunks n fuel l :
  0 < n → length l < fuel →
  zip_longest_loop fuel fillvalue (replicate n Shared) l n
  = Ok (padded n fillvalue <$> chunks n l).
Proof.
  intros Hn. unfold chunks.
  assert (∀ bound fuel l, length l ≤ bound → length l < fuel →
    zip_longest_loop fuel fillvalue (replicate n Shared) l n
    = Ok (padded n fillvalue <$> chunks_upto bound n l)) as H.
  2: { intros. by apply H. }
  clear fuel l. intros bound. induction bound as [|bound IH]; intros fuel l Hb Hf.
  - destruct l; [| simpl in Hb; lia].
    destruct fuel as [|fuel]; [simpl in Hf; lia |]. simpl.
    destruct n as [|a]; [lia |].
    pose proof (zip_longest_pass_stop a 0) as Hs. rewrite app_nil_r in Hs.
    by rewrite Hs.
  - destruct fuel as [|fuel]; [lia |].
    destruct l as [|x l].
    + simpl. destruct n as [|a]; [lia |].
      pose proof (zip_longest_pass_stop a 0) as Hs. rewrite app_nil_r in Hs.
      by rewrite Hs.
    + cbn [zip_longest_loop chunks_upto].
      destruct (decide (n ≤ length (x :: l))) as [Hfull|Hshort].
      * rewrite zip_longest_pass_full by done.
        rewrite IH by (rewrite length_drop; simpl in *; lia).
        rewrite fmap_cons. unfold padded at 2.
        rewrite length_take_le, Nat.sub_diag, app_nil_r by done.
        reflexivity.
      * rewrite zip_longest_pass_short by (simpl in *; lia).
        destruct fuel as [|fuel]; [simpl in *; lia |].
        cbn [zip_longest_loop].
        change (length (x :: l)) with (S (length l)).
        rewrite zip_longest_pass_stop. cbn.
        rewrite drop_ge by (simpl in *; lia).
        rewrite take_ge by (simpl in *; lia).
        by destruct bound.
Qed.

(** [grouper] returns: the bound on the passes of [zip_longest] is never
    reached, and the tuples are the consecutive groups, the last one
    completed with the fill value. *)
Lemma grouper_total l (n : Z) :
  (1 ≤ n)%Z →
  grouper l n fillvalue = Ok (padded (Z.to_nat n) fillvalue <$> chunks (Z.to_nat n) l).
Proof.
  intros Hn. unfold grouper.
  destruct (Z.ltb_spec n ssize_min) as [E|_]; [unfold ssize_min in E; lia |].
  rewrite length_replicate.
  destruct (Nat.eqb_spec (Z.to_nat n) 0) as [E|_]; [lia |].
  apply zip_longest_loop_chunks; lia.
Qed.
End grouper_facts.

Section chunks_facts.
Context {A : Type}.
Implicit Types (l g : list A) (n bound : nat).

Lemma chunks_upto_nil bound n : chunks_upto bound n (@nil A) = [].
Proof. by destruct bound. Qed.

Lemma chunks_upto_concat bound n l :
  0 < n → length l ≤ bound → concat (chunks_upto bound n l) = l.
Proof.
  intros Hn. revert l. induction bound as [|bound IH]; intros l Hb.
  - destruct l; [done | simpl in Hb; lia].
  - destruct l as [|x l]; [done |].
    cbn [chunks_upto concat].
    rewrite IH by (rewrite length_drop; simpl in *; lia).
    apply take_drop.
Qed.

Lemma ceil_div_step a n : 0 < n → 0 < a → ceil_div a n = S (ceil_div (a - n) n).
Proof.
  intros Hn Ha. unfold ceil_div.
  destruct (decide (n ≤ a)) as [Hle|Hlt].
  - replace (a + n - 1) with ((a - n + n - 1) + 1 * n) by lia.
    rewrite Nat.div_add by lia. lia.
  - replace (a - n) with 0 by lia.
    replace (a + n - 1) with ((a - 1) + 1 * n) by lia.
    rewrite Nat.div_add by lia.
    rewrite !Nat.div_small by lia. done.
Qed.

Lemma chunks_upto_length bound n l :
  0 < n → length l ≤ bound →
  length (chunks_upto bound n l) = ceil_div (length l) n.
Proof.
  intros Hn. revert l. induction bound as [|bound IH]; intros l Hb.
  - destruct l; [| simpl in Hb; lia].
    simpl. unfold ceil_div. by rewrite Nat.div_small by lia.
  - destruct l as [|x l].
    + simpl. unfold ceil_div. by rewrite Nat.div_small by lia.
    + cbn [chunks_upto]. rewrite length_cons.
      rewrite IH by (rewrite length_drop; simpl in *; lia).
      rewrite length_drop. symmetry. apply ceil_div_step; simpl; lia.
Qed.

(** Every group is non-empty and holds at most [n] elements; only the
    last one can hold fewer. *)
Lemma chunks_upto_sizes bound n l i g :
  0 < n → length l ≤ bound →
  chunks_upto bound n l !! i = Some g →
  0 < length g ≤ n ∧ (S i < length (chunks_upto bound n l) → length g = n).
Proof.
  intros Hn. revert l i. induction bound as [|bound IH]; intros l i Hb Hg.
  - by destruct l.
  - destruct l as [|x l]; [done |].
    cbn [chunks_upto] in *.
    destruct i as [|i].
    + injection Hg as <-. rewrite length_take. split; [simpl; lia |].
      rewrite length_cons. intros Hi.
      destruct (decide (n < length (x :: l))) as [|Hs]; [lia |].
      rewrite drop_ge, chunks_upto_nil in Hi by lia. simpl in Hi. lia.
    + cbn in Hg. apply IH in Hg; [| rewrite length_drop; simpl in *; lia].
      destruct Hg as [Hsz Hlast]. split; [done |].
      rewrite length_cons. intros Hi. apply Hlast. lia.
Qed.
End chunks_facts.

Lemma mapM_fmap_Ok {A B C} (h : C → A) (f : A → result B) (g : C → B) (l : list C) :
  (∀ x, f (h x) = Ok (g x)) → mapM f (h <$> l) = Ok (g <$> l).
Proof.
  intros Hf. induction l as [|x l IH]; [done |].
  cbn [fmap list_fmap mapM]. rewrite Hf.
  change (list_fmap C A h l) with (h <$> l). rewrite IH. reflexivity.
Qed.

(** The filter of a padded line keeps the records that are not empty: the
    fill value [None] is false, and so is an empty dictionary. *)
Lemma filter_padded_line n (g : list (gmap string pyval)) :
  List.filter item_truthy (padded n (IVal PNone) (IDict <$> g))
  = IDict <$> List.filter (λ d, negb (bool_decide (d = ∅))) g.
Proof.
  unfold padded. rewrite List.filter_app.
  assert (List.filter item_truthy (replicate (n - length (IDict <$> g)) (IVal PNone)) = [])
    as ->.
  { induction (n - length (IDict <$> g)) as [|k IH]; [done | by simpl]. }
  rewrite app_nil_r.
  induction g as [|d g IH]; [done |].
  cbn [fmap list_fmap List.filter item_truthy].
  destruct (negb (bool_decide (d = ∅))); cbn [fmap list_fmap]; by rewrite <- IH.
Qed.

Lemma convert_links_to_html_lines (recs : list (gmap string pyval)) args :
  (1 ≤ max_button_per_line args)%Z →
  convert_links_to_html (IDict <$> recs) args
  = Ok (String.concat "<br/>"
          (line_html args <$> chunks (Z.to_nat (max_button_per_line args)) recs)).
Proof.
  intros HK. unfold convert_links_to_html.
  rewrite grouper_total by done. cbn [mbind result_bind].
  set (n := Z.to_nat (max_button_per_line args)).
  assert (chunks n (IDict <$> recs) = (fmap IDict) <$> chunks n recs) as ->.
  { unfold chunks. rewrite length_fmap.
    generalize (length recs) as bound. intros bound. revert recs.
    induction bound as [|bound IH]; intros recs; [by destruct recs |].
    destruct recs as [|d recs]; [done |].
    cbn [chunks_upto fmap list_fmap].
    change (IDict d :: (IDict <$> recs)) with (IDict <$> (d :: recs)).
    rewrite <- fmap_take, <- fmap_drop, IH. reflexivity. }
  rewrite <- list_fmap_compose.
  rewrite (mapM_fmap_Ok _ _ (line_html args)); [reflexivity |].
  intros g. cbn [compose].
  rewrite filter_padded_line.
  rewrite (mapM_fmap_Ok _ _ (λ d, json_repr_to_html d args)); done.
Qed.

(** The grid in terms of the groups of [grouper]: for [K >= 1] the
    records are cut, in input order, into ceil(N/K) consecutive groups;
    every group holds [K] records except possibly the last, which holds at
    least one.  What is joined by a line feed, though, are the fragments of
    the records of a group that are not empty dictionaries ([line_html]);
    the lines are joined by one ["<br/>"]. *)
Lemma grid_partition (recs : list (gmap string pyval)) (args : Namespace) :
  (1 ≤ max_button_per_line args)%Z →
  let K := Z.to_nat (max_button_per_line args) in
  (∃ groups : list (list (gmap string pyval)),
     concat groups = recs ∧
     length groups = ceil_div (length recs) K ∧
     (∀ i g, groups !! i = Some g →
        0 < length g ≤ K ∧ (S i < length groups → length g = K)) ∧
     convert_links_to_html (IDict <$> recs) args
     = Ok (String.concat "<br/>" (line_html args <$> groups))) ∧
  (∀ a b c, recs = [a; b; c] → K = 2 →
     convert_links_to_html (IDict <$> recs) args
     = Ok (line_html args [a; b] +:+ "<br/>" +:+ line_html args [c])).
Proof.
  intros HK K.
  assert (0 < K) as HK0 by (subst K; lia).
  split.
  - exists (chunks K recs). unfold chunks. split; [| split; [| split]].
    + by apply chunks_upto_concat.
    + by apply chunks_upto_length.
    + intros i g Hg. by eapply chunks_upto_sizes.
    + by apply convert_links_to_html_lines.
  - intros a b c -> HK2.
    rewrite convert_links_to_html_lines by done.
    fold K. rewrite HK2. reflexivity.
Qed.

Lemma grid_partition_witness :
  let args := parse_cli_defaults ["links.json"] in
  let a := record_of "A" "home" "/a" in
  let b := record_of "B" "home" "/b" in
  let c := record_of "C" "home" "/c" in
  convert_links_to_html (IDict <$> [a; b; c]) args
  = Ok (line_html args [a; b] +:+ "<br/>" +:+ line_html args [c]).
Proof.
  intros args a b c.
  refine (proj2 (grid_partition [a; b; c] args _) a b c eq_refl eq_refl).
  vm_compute. discriminate.
Defined.

(** ** The button renderer *)

(** The fragment of a record, in terms of its parts. *)
Lemma convert_link_to_html_markup text icon url width fontsize color hovered_color defaults :
  convert_link_to_html text icon url width fontsize color hovered_color defaults
  = button_markup (py_str url) (py_str icon) (py_str text)
      (style_attr width fontsize color +:+
       (if truthy hovered_color
        then mouse_attrs (py_str hovered_color)
               (if truthy color then py_str color else button_color defaults)
        else "")).
Proof.
  unfold convert_link_to_html, button_markup, style_attr, style_decls, mouse_attrs.
  destruct (truthy width), (truthy fontsize), (truthy color), (truthy hovered_color);
    cbn [orb app]; rewrite ?append_assoc, ?append_nil_r; reflexivity.
Qed.

(** A falsy width, font size, color or hover color renders as [None] does. *)
Lemma convert_link_to_html_falsy text icon url width fontsize color hovered_color defaults :
  let blank v := if truthy v then v else PNone in
  convert_link_to_html text icon url (blank width) (blank fontsize) (blank color)
    (blank hovered_color) defaults
  = convert_link_to_html text icon url width fontsize color hovered_color defaults.
Proof.
  intros blank. unfold convert_link_to_html, blank.
  destruct (truthy width) eqn:Hw, (truthy fontsize) eqn:Hf, (truthy color) eqn:Hc,
    (truthy hovered_color) eqn:Hh;
    rewrite ?Hw, ?Hf, ?Hc, ?Hh; reflexivity.
Qed.

Lemma json_repr_to_html_markup (d : gmap string pyval) args :
  json_repr_to_html d args
  = button_markup (py_str (get d "url" (PStr "/")))
      (py_str (get d "fa icon" (PStr "home")))
      (py_str (get d "text" (PStr "")))
      (style_attr (get d "button width" PNone) (get d "fontsize" PNone)
         (get d "color" PNone) +:+
       (if truthy (get d "hovered color" PNone)
        then mouse_attrs (py_str (get d "hovered color" PNone))
               (if truthy (get d "color" PNone)
                then py_str (get d "color" PNone) else button_color args)
        else "")).
Proof. apply convert_link_to_html_markup. Qed.

Lemma button_markup_occurs url icon text attrs :
  occurs url (button_markup url icon text attrs)
  ∧ occurs icon (button_markup url icon text attrs)
  ∧ occurs text (button_markup url icon text attrs).
Proof.
  unfold button_markup. split; [| split].
  - apply (occurs_intro ("<a href=" +:+ dq) _
             (dq +:+ "><button class=" +:+ dq +:+ "btn" +:+ dq +:+ " " +:+ attrs
              +:+ "> <i class=" +:+ dq +:+ "fa-solid fa-" +:+ icon +:+ dq
              +:+ "></i> &nbsp; " +:+ text +:+ " </button></a>")).
    rewrite !append_assoc. reflexivity.
  - apply (occurs_intro ("<a href=" +:+ dq +:+ url +:+ dq +:+ "><button class=" +:+ dq
                           +:+ "btn" +:+ dq +:+ " " +:+ attrs +:+ "> <i class=" +:+ dq
                           +:+ "fa-solid fa-") _
             (dq +:+ "></i> &nbsp; " +:+ text +:+ " </button></a>")).
    rewrite !append_assoc. reflexivity.
  - apply (occurs_intro ("<a href=" +:+ dq +:+ url +:+ dq +:+ "><button class=" +:+ dq
                           +:+ "btn" +:+ dq +:+ " " +:+ attrs +:+ "> <i class=" +:+ dq
                           +:+ "fa-solid fa-" +:+ icon +:+ dq +:+ "></i> &nbsp; ") _
             " </button></a>").
    rewrite !append_assoc. reflexivity.
Qed.

(** The text, the icon name and the URL of a record appear in its
    fragment exactly as [str()] prints them. *)
Lemma json_repr_to_html_occurs (d : gmap string pyval) (args : Namespace) (t i u : pyval) :
  d !! "text" = Some t →
  d !! "fa icon" = Some i →
  d !! "url" = Some u →
  occurs (py_str t) (json_repr_to_html d args)
  ∧ occurs (py_str i) (json_repr_to_html d args)
  ∧ occurs (py_str u) (json_repr_to_html d args).
Proof.
  intros Ht Hi Hu. rewrite json_repr_to_html_markup.
  unfold get. rewrite Ht, Hi, Hu. cbn [default].
  pose proof (button_markup_occurs (py_str u) (py_str i) (py_str t)) as H.
  split; [apply H | split; apply H].
Qed.

(** C1 as stated fails: the escaped form of a value does not appear in the
    fragment when the value holds a character that escaping rewrites. *)
Lemma escaped_values_absent :
  ¬ (∀ (d : gmap string pyval) (args : Namespace) (t i u : string),
       d !! "text" = Some (PStr t) →
       d !! "fa icon" = Some (PStr i) →
       d !! "url" = Some (PStr u) →
       occurs (escape t) (json_repr_to_html d args)
       ∧ occurs (escape i) (json_repr_to_html d args)
       ∧ occurs (escape u) (json_repr_to_html d args)).
Proof.
  intros H.
  destruct (H (record_of "a<b" "home" "/") (parse_cli_defaults ["links.json"])
              "a<b" "home" "/" eq_refl eq_refl eq_refl) as [Ht _].
  apply occurs_contains in Ht. vm_compute in Ht. discriminate.
Qed.

(** C5, on the code: a record with no key at all is false in Python, so
    the filter meant for the fill values of [grouper] drops it and the grid
    holds no button for it, although [json_repr_to_html] renders it with
    the defaults (icon [home], URL [/], empty text, no inline style). *)
Theorem empty_record_dropped (args : Namespace) :
  (1 ≤ max_button_per_line args)%Z →
  convert_links_to_html [IDict ∅] args = Ok ""
  ∧ json_repr_to_html ∅ args = button_markup "/" "home" "" "".
Proof.
  intros HK. split.
  - change [IDict ∅] with (IDict <$> [(∅ : gmap string pyval)]).
    rewrite convert_links_to_html_lines by done.
    unfold chunks. cbn [length chunks_upto].
    rewrite take_ge by (simpl; lia). reflexivity.
  - rewrite json_repr_to_html_markup. unfold get. rewrite !lookup_empty. reflexivity.
Qed.

Lemma empty_record_dropped_witness :
  convert_links_to_html [IDict ∅] (parse_cli_defaults ["links.json"]) = Ok ""
  ∧ json_repr_to_html ∅ (parse_cli_defaults ["links.json"]) = button_markup "/" "home" "" "".
Proof. apply empty_record_dropped. vm_compute. discriminate. Defined.

(** The same on a whole run: a JSON file that holds one record without
    keys gives a page without a button. *)
Example empty_record_page :
  let fs := {| files := <["links.json" := "[{}]"]> Demo.templates; dirs := Demo.dirs3 |} in
  let fs' := (Demo.main (parse_cli_defaults ["links.json"]) fs).2 in
  files fs' !! "out/index.html" = Some "<html>".
Proof. vm_compute. reflexivity. Qed.

(** Only the empty record is lost: a record with at least one key gets its
    button in the grid. *)
Lemma nonempty_record_rendered (d : gmap string pyval) (args : Namespace) :
  (1 ≤ max_button_per_line args)%Z → d ≠ ∅ →
  convert_links_to_html [IDict d] args = Ok (json_repr_to_html d args).
Proof.
  intros HK Hd.
  change [IDict d] with (IDict <$> [d]).
  rewrite convert_links_to_html_lines by done.
  unfold chunks. cbn [length chunks_upto].
  rewrite take_ge by (simpl; lia).
  unfold line_html. cbn [fmap list_fmap List.filter].
  by rewrite bool_decide_eq_false_2.
Qed.

Lemma get_missing (d : gmap string pyval) key dflt : d !! key = None → get d key dflt = dflt.
Proof. unfold get. by intros ->. Qed.

(** C6: a record with a hover color gets the mouse-enter and mouse-exit
    attributes, which set the background to the hover color and back to
    the color of the record, or to the default button color when the
    record has none; a record without a hover color gets neither.  A
    color is set when its value is true in Python: see C10. *)
Theorem hover_attributes (d : gmap string pyval) (args : Namespace) :
  let h := get d "hovered color" PNone in
  let c := get d "color" PNone in
  let style := style_attr (get d "button width" PNone) (get d "fontsize" PNone) c in
  let markup := button_markup (py_str (get d "url" (PStr "/")))
                  (py_str (get d "fa icon" (PStr "home")))
                  (py_str (get d "text" (PStr ""))) in
  (truthy h = true →
     json_repr_to_html d args
     = markup (style +:+ mouse_attrs (py_str h)
                            (if truthy c then py_str c else button_color args)))
  ∧ (truthy h = false → json_repr_to_html d args = markup style)
  ∧ (d !! "hovered color" = None → json_repr_to_html d args = markup style).
Proof.
  intros h c style markup. rewrite json_repr_to_html_markup.
  fold h c style markup.
  split; [| split].
  - by intros ->.
  - intros ->. by rewrite append_nil_r.
  - intros Hnone. unfold h. rewrite (get_missing _ _ _ Hnone).
    cbn [truthy]. by rewrite append_nil_r.
Qed.

Lemma hover_attributes_witness :
  json_repr_to_html (<["hovered color" := PStr "Pink"]> (record_of "CV" "home" "/"))
    (parse_cli_defaults ["links.json"])
  = button_markup "/" "home" "CV" (mouse_attrs "Pink" "DarkOrange")
  ∧ json_repr_to_html (record_of "CV" "home" "/") (parse_cli_defaults ["links.json"])
    = button_markup "/" "home" "CV" "".
Proof.
  split.
  - refine (eq_trans (proj1 (hover_attributes
                               (<["hovered color" := PStr "Pink"]> (record_of "CV" "home" "/"))
                               (parse_cli_defaults ["links.json"])) _) _);
      vm_compute; reflexivity.
  - refine (eq_trans (proj2 (proj2 (hover_attributes (record_of "CV" "home" "/")
                                      (parse_cli_defaults ["links.json"]))) _) _);
      vm_compute; reflexivity.
Defined.

Lemma get_delete_eq (d : gmap string pyval) key : get (delete key d) key PNone = PNone.
Proof. unfold get. by rewrite lookup_delete_eq. Qed.

Lemma get_delete_ne (d : gmap string pyval) key key' dflt :
  key ≠ key' → get (delete key d) key' dflt = get d key' dflt.
Proof. intros Hne. unfold get. by rewrite lookup_delete_ne. Qed.

(** C10: for the width, the font size, the color and the hover color, a
    value that is false in Python (0, the empty string, null) counts as no
    value: the fragment is the one of the record without that key.  A
    record whose width, font size and color are all missing or false has
    no inline style attribute, and with a missing or false color the
    mouse-exit attribute restores the default button color. *)
Theorem falsy_style_is_absent (d : gmap string pyval) (args : Namespace) :
  let w := get d "button width" PNone in
  let f := get d "fontsize" PNone in
  let c := get d "color" PNone in
  let h := get d "hovered color" PNone in
  let markup := button_markup (py_str (get d "url" (PStr "/")))
                  (py_str (get d "fa icon" (PStr "home")))
                  (py_str (get d "text" (PStr ""))) in
  (∀ key v,
     key ∈ ["button width"; "fontsize"; "color"; "hovered color"] →
     d !! key = Some v → truthy v = false →
     json_repr_to_html d args = json_repr_to_html (delete key d) args)
  ∧ (truthy w = false → truthy f = false → truthy c = false →
     json_repr_to_html d args
     = markup (if truthy h then mouse_attrs (py_str h) (button_color args) else ""))
  ∧ (truthy h = true → truthy c = false →
     json_repr_to_html d args
     = markup (style_attr w f c +:+ mouse_attrs (py_str h) (button_color args))).
Proof.
  intros w f c h markup. split; [| split].
  - intros key v Hkey Hv Hfalse.
    unfold json_repr_to_html.
    rewrite <- (convert_link_to_html_falsy _ _ _ (get d "button width" PNone)).
    rewrite <- (convert_link_to_html_falsy _ _ _ (get (delete key d) "button width" PNone)).
    cbn zeta.
    assert (get d key PNone = v) as Hget by (unfold get; by rewrite Hv).
    repeat (apply elem_of_cons in Hkey as [-> | Hkey]);
      [ | | | | by apply elem_of_nil in Hkey];
      rewrite ?get_delete_eq, ?get_delete_ne by done;
      rewrite Hget, Hfalse; reflexivity.
  - intros Hw Hf Hc. rewrite json_repr_to_html_markup. fold w f c h markup.
    unfold style_attr. rewrite Hw, Hf, Hc. reflexivity.
  - intros Hh Hc. rewrite json_repr_to_html_markup. fold w f c h markup.
    rewrite Hh, Hc. reflexivity.
Qed.

Lemma falsy_style_is_absent_witness :
  let args := parse_cli_defaults ["links.json"] in
  let d := <["button width" := PInt 0]>
             (<["color" := PStr ""]>
                (<["hovered color" := PStr "Pink"]> (record_of "CV" "home" "/"))) in
  json_repr_to_html d args = json_repr_to_html (delete "color" d) args
  ∧ json_repr_to_html d args
    = button_markup "/" "home" "CV" (mouse_attrs "Pink" "DarkOrange").
Proof.
  intros args d. split.
  - refine (proj1 (falsy_style_is_absent d args) "color" (PStr "") _ _ _);
      [do 3 constructor | reflexivity | reflexivity].
  - refine (eq_trans (proj1 (proj2 (falsy_style_is_absent d args)) _ _ _) _);
      vm_compute; reflexivity.
Defined.

(** ** The record loader and the entry point *)

Section loader_facts.
Context `{Libraries}.

Lemma links_repr_from_file_unsupported fs infile :
  unsupported infile →
  links_repr_from_file fs infile
  = Raise (NotImplementedError
             ("Cannot handle file " +:+ infile +:+ " (not a json nor a csv)")).
Proof. intros [Hcsv Hjson]. unfold links_repr_from_file. by rewrite Hcsv, Hjson. Qed.

(** The loop over the input files stops at the first file that fails. *)
Lemma sum_links_app fs before after start links :
  sum_links fs before start = Ok links →
  sum_links fs (before ++ after) start = sum_links fs after links.
Proof.
  revert start. induction before as [|f before IH]; intros start Hok.
  - by injection Hok as ->.
  - cbn [app sum_links] in *.
    destruct (links_repr_from_file fs f) as [l|e]; [| done].
    cbn [mbind result_bind] in *. by apply IH.
Qed.

Lemma sum_links_Forall_Ok fs before start :
  Forall (λ g, ∃ links, links_repr_from_file fs g = Ok links) before →
  ∃ links, sum_links fs before start = Ok links.
Proof.
  intros Hall. revert start. induction Hall as [|g before [l Hl] _ IH]; intros start.
  - by exists start.
  - cbn [sum_links]. rewrite Hl. apply IH.
Qed.

(** With an unsupported path among the input files, some file is the
    first that fails to load, and the loop ends with its exception. *)
Lemma sum_links_first_failure fs infiles f :
  f ∈ infiles → unsupported f →
  ∃ before g after e,
    infiles = before ++ g :: after
    ∧ Forall (λ g, ∃ links, links_repr_from_file fs g = Ok links) before
    ∧ links_repr_from_file fs g = Raise e
    ∧ ∀ start, sum_links fs infiles start = Raise e.
Proof.
  intros Hin Hf.
  induction infiles as [|h infiles IH]; [by apply elem_of_nil in Hin |].
  destruct (links_repr_from_file fs h) as [l|e] eqn:Hh.
  - apply elem_of_cons in Hin as [-> | Hin].
    { rewrite links_repr_from_file_unsupported in Hh by done. discriminate. }
    destruct (IH Hin) as (before & g & after & e & -> & Hbefore & Hg & Hsum).
    exists (h :: before), g, after, e. split; [done |]. split; [| split; [done |]].
    + constructor; [by exists l | done].
    + intros start. cbn [app sum_links]. rewrite Hh. cbn [mbind result_bind].
      apply Hsum.
  - exists [], h, infiles, e. split; [done |]. split; [constructor |]. split; [done |].
    intros start. cbn [sum_links]. by rewrite Hh.
Qed.

(** C3, as the code has it: when an input path ends in neither [.csv]
    nor [.json] the run ends with an exception and leaves every file as
    it was, since all input files are loaded before the first template is
    written.  The exception is the one of the first input file that fails
    to load: the unsupported-format error of that path when every file
    before it loads. *)
Theorem unsupported_input_aborts (args : Namespace) (fs : filesystem) (f : string) :
  f ∈ infiles args → unsupported f →
  (∃ before g after e,
     infiles args = before ++ g :: after
     ∧ Forall (λ g, ∃ links, links_repr_from_file fs g = Ok links) before
     ∧ links_repr_from_file fs g = Raise e
     ∧ main args fs = (Raise e, fs))
  ∧ (∀ before after,
       infiles args = before ++ f :: after →
       Forall (λ g, ∃ links, links_repr_from_file fs g = Ok links) before →
       main args fs
       = (Raise (NotImplementedError
                   ("Cannot handle file " +:+ f +:+ " (not a json nor a csv)")), fs)).
Proof.
  intros Hin Hf. split.
  - destruct (sum_links_first_failure fs (infiles args) f Hin Hf)
      as (before & g & after & e & Hsplit & Hbefore & Hg & Hsum).
    exists before, g, after, e. repeat (split; [done |]).
    unfold main. by rewrite Hsum.
  - intros before after Hsplit Hbefore.
    destruct (sum_links_Forall_Ok fs before [] Hbefore) as [links Hlinks].
    unfold main. rewrite Hsplit, (sum_links_app _ _ _ _ _ Hlinks).
    cbn [sum_links]. by rewrite links_repr_from_file_unsupported.
Qed.

(** What the loader makes of the rows of a CSV file. *)
Lemma mapM_rows_short (rows : list (list string)) :
  (∃ a, a ∈ rows ∧ length a < 3) →
  mapM (M := result) (λ a,
    text ← index a 0; icon ← index a 1; url ← index a 2;
    Ok (IDict (<["text" := PStr text]>
               (<["fa icon" := PStr icon]> (<["url" := PStr url]> ∅))))) rows
  = Raise IndexError.
Proof.
  intros (a & Hin & Hlen).
  induction rows as [|b rows IH]; [by apply elem_of_nil in Hin |].
  cbn [mapM].
  destruct b as [|t [|i [|u rest]]]; try reflexivity.
  apply elem_of_cons in Hin as [-> | Hin]; [simpl in Hlen; lia |].
  cbn. rewrite IH by done. reflexivity.
Qed.

Lemma mapM_rows_long (rows : list (list string)) :
  Forall (λ a, 3 ≤ length a) rows →
  ∃ links,
    mapM (M := result) (λ a,
      text ← index a 0; icon ← index a 1; url ← index a 2;
      Ok (IDict (<["text" := PStr text]>
                 (<["fa icon" := PStr icon]> (<["url" := PStr url]> ∅))))) rows
    = Ok links
    ∧ Forall2 (λ a link, ∃ text icon url rest,
                 a = text :: icon :: url :: rest
                 ∧ link = IDict (record_of text icon url)) rows links.
Proof.
  induction 1 as [|a rows Hlen _ (links & Hlinks & Hall)].
  - exists []. split; [reflexivity | constructor].
  - destruct a as [|t [|i [|u rest]]]; try (simpl in Hlen; lia).
    exists (IDict (record_of t i u) :: links). split.
    + cbn [mapM]. rewrite Hlinks. reflexivity.
    + constructor; [| done]. by exists t, i, u, rest.
Qed.

(** C4, as the code has it: the load of a CSV file fails, with an index
    error, exactly on a row of fewer than three fields.  A row of more
    than three fields is accepted and its fields after the third are
    ignored; no row is skipped, and the records are in the order of the
    rows. *)
Theorem csv_rows_first_three_fields (fs : filesystem) (infile content : string)
    (rows : list (list string)) (stop : option exn) :
  endswith infile ".csv" = true →
  read_file fs infile = Ok content →
  csv_reader content = (rows, stop) →
  ((∃ a, a ∈ rows ∧ length a < 3) → links_repr_from_file fs infile = Raise IndexError)
  ∧ (Forall (λ a, 3 ≤ length a) rows → stop = None →
     ∃ links,
       links_repr_from_file fs infile = Ok links
       ∧ Forall2 (λ a link, ∃ text icon url rest,
                    a = text :: icon :: url :: rest
                    ∧ link = IDict (record_of text icon url)) rows links).
Proof.
  intros Hext Hread Hrows. unfold links_repr_from_file.
  rewrite Hext, Hread. cbn [mbind result_bind]. rewrite Hrows. split.
  - intros Hshort. by rewrite mapM_rows_short.
  - intros Hlong ->. destruct (mapM_rows_long rows Hlong) as (links & -> & Hall).
    by exists links.
Qed.
End loader_facts.

Lemma unsupported_input_aborts_witness :
  let args := parse_cli_defaults ["links.csv"; "notes.txt"] in
  let fs := {| files := <["links.csv" := "CV,home,https://x"]> Demo.templates;
               dirs := Demo.dirs3 |} in
  Demo.main args fs
  = (Raise (NotImplementedError "Cannot handle file notes.txt (not a json nor a csv)"), fs).
Proof.
  intros args fs.
  refine (proj2 (@unsupported_input_aborts Demo.libs args fs "notes.txt" _ _)
            ["links.csv"] [] eq_refl _).
  - do 2 constructor.
  - split; reflexivity.
  - constructor; [| constructor]. eexists. vm_compute. reflexivity.
Defined.

(** C3 as stated fails: with a first file that cannot be read, the run
    ends with the exception of that file and not with the
    unsupported-format error of the second. *)
Lemma unsupported_input_other_error :
  ¬ (∀ (args : Namespace) (fs : filesystem) (f : string),
       f ∈ infiles args → unsupported f →
       ∃ msg, Demo.main args fs = (Raise (NotImplementedError msg), fs)).
Proof.
  intros H.
  destruct (H (parse_cli_defaults ["missing.json"; "notes.txt"])
              {| files := Demo.templates; dirs := Demo.dirs3 |} "notes.txt")
    as [msg Hmsg].
  - do 2 constructor.
  - split; reflexivity.
  - vm_compute in Hmsg. discriminate.
Qed.

Lemma csv_rows_first_three_fields_witness :
  let fs := {| files := <["links.csv" := "CV,home,https://x,extra"]> ∅; dirs := ∅ |} in
  ∃ links,
    Demo.links_repr_from_file fs "links.csv" = Ok links
    ∧ Forall2 (λ a link, ∃ text icon url rest,
                 a = text :: icon :: url :: rest
                 ∧ link = IDict (record_of text icon url))
        [["CV"; "home"; "https://x"; "extra"]] links.
Proof.
  intros fs.
  refine (proj2 (@csv_rows_first_three_fields Demo.libs fs "links.csv"
                   "CV,home,https://x,extra" [["CV"; "home"; "https://x"; "extra"]] None
                   _ _ _) _ _).
  - reflexivity.
  - reflexivity.
  - reflexivity.
  - constructor; [simpl; lia | constructor].
  - reflexivity.
Defined.

(** C4 as stated fails: a row of four fields loads. *)
Lemma csv_row_of_four_fields_loads :
  ¬ (∀ (fs : filesystem) (infile content : string) (rows : list (list string))
       (a : list string),
       endswith infile ".csv" = true →
       read_file fs infile = Ok content →
       Demo.plain_csv content = (rows, None) →
       a ∈ rows → length a ≠ 3 →
       ∃ e, Demo.links_repr_from_file fs infile = Raise e).
Proof.
  intros H.
  destruct (H {| files := <["links.csv" := "CV,home,https://x,extra"]> ∅; dirs := ∅ |}
              "links.csv" "CV,home,https://x,extra"
              [["CV"; "home"; "https://x"; "extra"]]
              ["CV"; "home"; "https://x"; "extra"]) as [e He];
    try reflexivity.
  - constructor.
  - simpl. lia.
  - vm_compute in He. discriminate.
Qed.

(** ** The template writer *)

Lemma endswith_refl (s : string) : endswith s s = true.
Proof. destruct s; simpl; [done |]. by rewrite Ascii.eqb_refl, String.eqb_refl. Qed.

Lemma endswith_append (a b : string) : endswith (a +:+ b) b = true.
Proof.
  induction a as [|x a IH]; [apply endswith_refl |].
  rewrite append_cons. cbn [endswith]. rewrite IH. apply orb_true_r.
Qed.

Lemma endswith_path_join (a b : string) : endswith (path_join a b) b = true.
Proof.
  unfold path_join. destruct (_ || _).
  - apply endswith_append.
  - rewrite <- append_assoc. apply endswith_append.
Qed.

Lemma path_join_inj (a b b' : string) : path_join a b = path_join a b' → b = b'.
Proof.
  unfold path_join. destruct (_ || _); intros Heq.
  - by apply (inj (String.app a)) in Heq.
  - apply (inj (String.app a)) in Heq. by apply (inj (String.app "/")) in Heq.
Qed.

Lemma put_file_put_file fs dir name content content' :
  put_file (put_file fs dir name content) dir name content' = put_file fs dir name content'.
Proof. unfold put_file. cbn. by rewrite insert_insert_eq. Qed.

Lemma read_file_Ok fs path content :
  read_file fs path = Ok content → files fs !! path = Some content.
Proof.
  unfold read_file. destruct (bool_decide (path ∈ dirs fs)); [done |].
  by destruct (files fs !! path) as [c|]; intros [= ->].
Qed.

Lemma read_file_put_file fs dir name content path :
  path ≠ path_join dir name →
  read_file (put_file fs dir name content) path = read_file fs path.
Proof.
  intros Hne. unfold read_file. cbn [put_file files dirs].
  by rewrite lookup_insert_ne.
Qed.

Section writer_facts.
Context `{Libraries}.

(** A call of the writer that does not find its target directory writes
    nothing. *)
Lemma render_template_missing_target name tdir target vars fs :
  path_exists fs target = false →
  render_template name tdir target vars fs = (Raise AssertionError, fs).
Proof. intros Hmiss. unfold render_template. by rewrite Hmiss. Qed.

(** The writer never creates a directory. *)
Lemma render_template_dirs name tdir target vars fs :
  dirs (render_template name tdir target vars fs).2 = dirs fs.
Proof.
  unfold render_template.
  destruct (negb (path_exists fs target)); [done |].
  destruct (read_file fs (path_join tdir name)) as [src|e]; [| done].
  cbn [mbind result_bind].
  destruct (Template src) as [tpl|e]; [| done].
  unfold open_write.
  destruct (bool_decide (target ∈ dirs fs)).
  - destruct (bool_decide (path_join target name ∈ dirs fs)); [done |].
    by destruct (render tpl vars).
  - by destruct (path_exists fs target).
Qed.

(** A call of the writer that succeeds. *)
Lemma render_template_Ok name tdir target vars fs fs' :
  render_template name tdir target vars fs = (Ok (), fs') →
  ∃ source tpl text,
    read_file fs (path_join tdir name) = Ok source
    ∧ Template source = Ok tpl
    ∧ render tpl vars = Ok text
    ∧ fs' = put_file fs target name text.
Proof.
  unfold render_template.
  destruct (negb (path_exists fs target)); [done |].
  destruct (read_file fs (path_join tdir name)) as [src|e] eqn:Hread; [| done].
  cbn [mbind result_bind].
  destruct (Template src) as [tpl|e] eqn:Htpl; [| done].
  unfold open_write.
  destruct (bool_decide (target ∈ dirs fs)).
  - destruct (bool_decide (path_join target name ∈ dirs fs)); [done |].
    destruct (render tpl vars) as [text|e] eqn:Htext; [| done].
    intros [= <-]. exists src, tpl, text. by rewrite put_file_put_file.
  - by destruct (path_exists fs target).
Qed.

(** A run that succeeds. *)
Lemma main_Ok args fs fs' :
  main args fs = (Ok (), fs') →
  ∃ links html fs1,
    sum_links fs (infiles args) [] = Ok links
    ∧ convert_links_to_html links args = Ok html
    ∧ render_template "index.html" (template_dir args) (outdir args)
        (page_variables html) fs = (Ok (), fs1)
    ∧ render_template "index.css" "templates/" "out/" (css_variables args) fs1
      = (Ok (), fs').
Proof.
  unfold main.
  destruct (sum_links fs (infiles args) []) as [links|e] eqn:Hlinks; [| done].
  destruct (convert_links_to_html links args) as [html|e] eqn:Hhtml; [| done].
  destruct (render_template "index.html" _ _ _ fs) as [[[]|e] fs1] eqn:Hpage; [| done].
  intros Hcss. by exists links, html, fs1.
Qed.

(** C7, on the code: after a run that succeeds the page is in the
    configured output directory, but the stylesheet is filled from
    [templates/index.css] and written to [out/index.css] whatever the
    configured directories are; no other file changes, so with another
    output directory its [index.css] is left as it was. *)
Theorem stylesheet_ignores_outdir (args : Namespace) (fs fs' : filesystem) :
  main args fs = (Ok (), fs') →
  (∃ source tpl html page,
     files fs !! path_join (template_dir args) "index.html" = Some source
     ∧ Template source = Ok tpl
     ∧ render tpl (page_variables html) = Ok page
     ∧ files fs' !! path_join (outdir args) "index.html" = Some page)
  ∧ (∃ source tpl sheet,
       files fs !! "templates/index.css" = Some source
       ∧ Template source = Ok tpl
       ∧ render tpl (css_variables args) = Ok sheet
       ∧ files fs' !! "out/index.css" = Some sheet)
  ∧ (∀ p, p ≠ path_join (outdir args) "index.html" → p ≠ "out/index.css" →
       files fs' !! p = files fs !! p)
  ∧ (path_join (outdir args) "index.css" ≠ "out/index.css" →
     files fs' !! path_join (outdir args) "index.css"
     = files fs !! path_join (outdir args) "index.css").
Proof.
  intros Hmain.
  destruct (main_Ok _ _ _ Hmain) as (links & html & fs1 & _ & _ & Hpage & Hcss).
  apply render_template_Ok in Hpage as (src0 & tpl0 & page & Hread0 & Htpl0 & Hrender0 & ->).
  apply render_template_Ok in Hcss as (src & tpl & sheet & Hread & Htpl & Hsheet & ->).
  assert (path_join (outdir args) "index.html" ≠ "out/index.css") as Hne1.
  { intros Heq. pose proof (endswith_path_join (outdir args) "index.html") as He.
    rewrite Heq in He. vm_compute in He. discriminate. }
  assert (path_join (outdir args) "index.html" ≠ "templates/index.css") as Hne2.
  { intros Heq. pose proof (endswith_path_join (outdir args) "index.html") as He.
    rewrite Heq in He. vm_compute in He. discriminate. }
  assert (∀ p, p ≠ path_join (outdir args) "index.html" → p ≠ "out/index.css" →
            files (put_file (put_file fs (outdir args) "index.html" page)
                     "out/" "index.css" sheet) !! p = files fs !! p) as Hother.
  { intros p Hp1 Hp2. cbn [put_file files].
    change (path_join "out/" "index.css") with "out/index.css".
    by rewrite !lookup_insert_ne. }
  split; [| split; [| split]].
  - exists src0, tpl0, html, page. split; [| split; [done | split; [done |]]].
    + by apply read_file_Ok.
    + cbn [put_file files].
      change (path_join "out/" "index.css") with "out/index.css".
      rewrite lookup_insert_ne by done. by rewrite lookup_insert_eq.
  - exists src, tpl, sheet. split; [| split; [done | split; [done |]]].
    + rewrite read_file_put_file in Hread.
      * by apply read_file_Ok in Hread.
      * apply not_eq_sym. exact Hne2.
    + cbn [put_file files].
      change (path_join "out/" "index.css") with "out/index.css".
      by rewrite lookup_insert_eq.
  - done.
  - intros Hne. apply Hother; [| done].
    intros Heq. by apply path_join_inj in Heq.
Qed.

(** X17: whatever its outcome, a run leaves the set of directories as it
    is: it creates neither the output directory nor any other. *)
Lemma main_dirs args fs : dirs (main args fs).2 = dirs fs.
Proof.
  unfold main.
  destruct (sum_links fs (infiles args) []) as [links|e]; [| done].
  destruct (convert_links_to_html links args) as [html|e]; [| done].
  pose proof (render_template_dirs "index.html" (template_dir args) (outdir args)
                (page_variables html) fs) as Hpage.
  destruct (render_template "index.html" _ _ _ fs) as [[[]|e] fs1]; [| done].
  cbn [snd] in Hpage. rewrite <- Hpage. apply render_template_dirs.
Qed.

(** X18: when the configured output directory itself is missing, the run
    fails and writes nothing. *)
Lemma main_missing_outdir args fs :
  path_exists fs (outdir args) = false → ∃ e, main args fs = (Raise e, fs).
Proof.
  intros Hmiss. unfold main.
  destruct (sum_links fs (infiles args) []) as [links|e]; [| by exists e].
  destruct (convert_links_to_html links args) as [html|e]; [| by exists e].
  rewrite render_template_missing_target by done. by exists AssertionError.
Qed.

(** C8, on the code: the second call of the writer looks for the
    directory [out/] and not for the configured one.  When the page has
    been written and [out/] does not exist, the run fails on the
    assertion of the second call, after the write of the page; no
    directory is created. *)
Theorem page_written_before_missing_out_dir (args : Namespace) (fs fs1 : filesystem)
    (links : list item) (html : string) :
  sum_links fs (infiles args) [] = Ok links →
  convert_links_to_html links args = Ok html →
  render_template "index.html" (template_dir args) (outdir args)
    (page_variables html) fs = (Ok (), fs1) →
  path_exists fs "out/" = false →
  main args fs = (Raise AssertionError, fs1)
  ∧ (∃ page, fs1 = put_file fs (outdir args) "index.html" page)
  ∧ dirs fs1 = dirs fs.
Proof.
  intros Hlinks Hhtml Hpage Hout.
  pose proof (render_template_dirs "index.html" (template_dir args) (outdir args)
                (page_variables html) fs) as Hdirs.
  rewrite Hpage in Hdirs. cbn [snd] in Hdirs.
  pose proof Hpage as Hwritten.
  apply render_template_Ok in Hwritten as (_ & _ & page & _ & _ & _ & Hfs1).
  assert (path_exists fs1 "out/" = false) as Hout1.
  { unfold path_exists in *. rewrite Hdirs.
    apply orb_false_iff in Hout as [Hd Hf]. rewrite Hd. cbn [orb].
    rewrite Hfs1. cbn [put_file files].
    rewrite lookup_insert_ne; [done |].
    intros Heq. pose proof (endswith_path_join (outdir args) "index.html") as He.
    rewrite Heq in He. vm_compute in He. discriminate. }
  split; [| split; [by exists page | done]].
  unfold main. rewrite Hlinks, Hhtml, Hpage.
  by apply render_template_missing_target.
Qed.

End writer_facts.

(** ** CSV rows and JSON objects *)

Section formats_facts.
Context `{Libraries}.

(** C9: the CSV row [CV,home,https://x] and the JSON object with the
    same text, icon and URL load to the same record, and so render to the
    same fragment.  The two library parsers are assumed to read these two
    texts as the formats say. *)
Theorem csv_row_equals_json_object (fs : filesystem) (csv_file json_file : string)
    (args : Namespace) :
  endswith csv_file ".csv" = true →
  endswith json_file ".csv" = false →
  endswith json_file ".json" = true →
  read_file fs csv_file = Ok "CV,home,https://x" →
  csv_reader "CV,home,https://x" = ([["CV"; "home"; "https://x"]], None) →
  read_file fs json_file = Ok (json_text "CV" "home" "https://x") →
  json_loads (json_text "CV" "home" "https://x")
  = Ok (JArray [IDict (<["text" := PStr "CV"]>
                       (<["fa icon" := PStr "home"]>
                        (<["url" := PStr "https://x"]> ∅)))]) →
  links_repr_from_file fs csv_file = links_repr_from_file fs json_file
  ∧ (∃ d, links_repr_from_file fs csv_file = Ok [IDict d]
          ∧ json_repr_to_html d args = button_markup "https://x" "home" "CV" "").
Proof.
  intros Hcsv Hnot Hjson Hread1 Hrows Hread2 Hloads.
  assert (links_repr_from_file fs csv_file = Ok [IDict (record_of "CV" "home" "https://x")])
    as Hl1.
  { unfold links_repr_from_file. rewrite Hcsv, Hread1. cbn [mbind result_bind].
    rewrite Hrows. reflexivity. }
  assert (links_repr_from_file fs json_file = Ok [IDict (record_of "CV" "home" "https://x")])
    as Hl2.
  { unfold links_repr_from_file. rewrite Hnot, Hjson, Hread2. cbn [mbind result_bind].
    rewrite Hloads. reflexivity. }
  rewrite Hl1, Hl2. split; [done |].
  exists (record_of "CV" "home" "https://x"). split; [done |].
  rewrite json_repr_to_html_markup. reflexivity.
Qed.
End formats_facts.

Lemma stylesheet_ignores_outdir_witness :
  let fs' := (Demo.main Demo.build_args Demo.fs_links).2 in
  files fs' !! "build/index.css" = None
  ∧ files fs' !! "out/index.css" = Some "css:220100OrangeDarkOrange".
Proof.
  intros fs'. split.
  - refine (proj2 (proj2 (proj2 (@stylesheet_ignores_outdir Demo.libs
                                   Demo.build_args Demo.fs_links fs' _))) _).
    + vm_compute. reflexivity.
    + vm_compute. discriminate.
  - vm_compute. reflexivity.
Defined.

Lemma page_written_before_missing_out_dir_witness :
  let html := json_repr_to_html (record_of "CV" "home" "https://x") Demo.build_args in
  Demo.main Demo.build_args Demo.fs_no_out
  = (Raise AssertionError,
     put_file Demo.fs_no_out "build/" "index.html" ("<html>" +:+ html)).
Proof.
  intros html.
  refine (proj1 (@page_written_before_missing_out_dir Demo.libs Demo.build_args
                   Demo.fs_no_out _ [IDict (record_of "CV" "home" "https://x")] html
                   _ _ _ _));
    vm_compute; reflexivity.
Defined.

Lemma csv_row_equals_json_object_witness :
  Demo.links_repr_from_file Demo.fs_links "links.csv"
  = Demo.links_repr_from_file Demo.fs_links "links.json".
Proof.
  refine (proj1 (@csv_row_equals_json_object Demo.libs Demo.fs_links
                   "links.csv" "links.json" Demo.build_args _ _ _ _ _ _ _));
    vm_compute; reflexivity.
Defined.

(** * Further properties of the code *)

(** ** [grouper] *)

Section grouper_tuples.
Context {A : Type} (fillvalue : A).
Implicit Types (l : list A) (n bound : nat).

Lemma padded_length n g : length g ≤ n → length (padded n fillvalue g) = n.
Proof. intros Hg. unfold padded. rewrite length_app, length_replicate. lia. Qed.

Lemma chunks_upto_padded_concat bound n l :
  0 < n → length l ≤ bound →
  concat (padded n fillvalue <$> chunks_upto bound n l)
  = l ++ replicate (length (chunks_upto bound n l) * n - length l) fillvalue.
Proof.
  intros Hn. revert l. induction bound as [|bound IH]; intros l Hb.
  - destruct l; [done | simpl in Hb; lia].
  - destruct l as [|x l]; [done |].
    cbn [chunks_upto]. rewrite fmap_cons, length_cons. cbn [concat].
    rewrite IH by (rewrite length_drop; simpl in *; lia).
    rewrite length_drop.
    destruct (decide (n ≤ length (x :: l))) as [Hfull|Hshort].
    + unfold padded. rewrite length_take_le, Nat.sub_diag, app_nil_r by done.
      rewrite app_assoc, take_drop. f_equal. f_equal.
      rewrite Nat.mul_succ_l. lia.
    + rewrite drop_ge, chunks_upto_nil by lia.
      rewrite take_ge by lia. unfold padded. cbn [length app replicate].
      rewrite app_nil_r. by rewrite Nat.mul_1_l.
Qed.

(** X1: for [n >= 1], [grouper] returns ceil(N/n) tuples of exactly [n]
    elements each; read in order they are the elements of the input,
    followed by as many copies of the fill value as the last tuple
    lacks. *)
Theorem grouper_tuples l (n : Z) :
  (1 ≤ n)%Z →
  ∃ tuples,
    grouper l n fillvalue = Ok tuples
    ∧ Forall (λ t, length t = Z.to_nat n) tuples
    ∧ length tuples = ceil_div (length l) (Z.to_nat n)
    ∧ concat tuples
      = l ++ replicate (length tuples * Z.to_nat n - length l) fillvalue.
Proof.
  intros Hn. exists (padded (Z.to_nat n) fillvalue <$> chunks (Z.to_nat n) l).
  assert (0 < Z.to_nat n) as Hn0 by lia.
  split; [by apply grouper_total |]. unfold chunks. split; [| split].
  - apply Forall_fmap, Forall_lookup. intros i g Hg. cbn [compose].
    apply padded_length.
    by eapply (chunks_upto_sizes (length l) (Z.to_nat n) l i g).
  - rewrite length_fmap. by apply chunks_upto_length.
  - rewrite length_fmap. by apply chunks_upto_padded_concat.
Qed.


End grouper_tuples.

Lemma grouper_tuples_witness :
  ∃ tuples,
    grouper ["A"; "B"; "C"; "D"; "E"; "F"; "G"] 3 "x" = Ok tuples
    ∧ Forall (λ t, length t = 3) tuples
    ∧ length tuples = 3
    ∧ concat tuples = ["A"; "B"; "C"; "D"; "E"; "F"; "G"; "x"; "x"].
Proof.
  destruct (grouper_tuples "x" ["A"; "B"; "C"; "D"; "E"; "F"; "G"] 3)
    as (tuples & Hgroup & Hlen & Hcount & Hconcat); [lia |].
  exists tuples. rewrite Hcount in Hconcat. by repeat split.
Defined.

(** ** The grid *)



Lemma mapM_result_ext {A B} (f g : A → result B) (l : list A) :
  (∀ x, f x = g x) → mapM f l = mapM g l.
Proof.
  intros Hfg. induction l as [|x l IH]; [done |].
  cbn [mapM]. by rewrite Hfg, IH.
Qed.

Lemma mapM_result_Forall_Ok {A B} (f : A → result B) (l : list A) :
  Forall (λ x, ∃ b, f x = Ok b) l → ∃ bs, mapM f l = Ok bs.
Proof.
  induction 1 as [|x l [b Hb] _ [bs Hbs]]; [by exists [] |].
  exists (b :: bs). cbn [mapM]. by rewrite Hb, Hbs.
Qed.

(** When [e] is the only exception [f] raises, it is the one the
    traversal ends with as soon as one element raises. *)
Lemma mapM_result_Exists_Raise {A B} (f : A → result B) (e : exn) (l : list A) :
  (∀ x, (∃ b, f x = Ok b) ∨ f x = Raise e) →
  Exists (λ x, f x = Raise e) l → mapM f l = Raise e.
Proof.
  intros Hf. induction 1 as [x l Hx | x l _ IH]; cbn [mapM].
  - by rewrite Hx.
  - destruct (Hf x) as [[b ->] | ->]; [| done]. by rewrite IH.
Qed.

Lemma chunks_upto_In {A} bound n (l g : list A) (x : A) :
  0 < n → length l ≤ bound → x ∈ l → ∃ g, g ∈ chunks_upto bound n l ∧ x ∈ g.
Proof.
  intros Hn Hb Hx.
  rewrite <- (chunks_upto_concat bound n l Hn Hb) in Hx.
  apply list_elem_of_In, in_concat in Hx as (g' & Hg' & Hx).
  exists g'. by rewrite !list_elem_of_In.
Qed.

Lemma chunks_upto_Forall {A} (P : A → Prop) bound n (l : list A) :
  0 < n → length l ≤ bound → Forall P l → Forall (Forall P) (chunks_upto bound n l).
Proof.
  intros Hn Hb Hl.
  rewrite <- (chunks_upto_concat bound n l Hn Hb) in Hl.
  rewrite !Forall_forall. intros g Hg. rewrite Forall_forall. intros x Hx.
  rewrite Forall_forall in Hl. apply Hl.
  apply list_elem_of_In, in_concat. exists g. by rewrite <- !list_elem_of_In.
Qed.

Section grid_elements.
Context (args : Namespace).

Lemma line_Ok_or_AttributeError line_links :
  (∃ s, render_line args line_links = Ok s)
  ∨ render_line args line_links = Raise AttributeError.
Proof.
  unfold render_line.
  induction (List.filter item_truthy line_links) as [|x l IH].
  - left. by eexists.
  - cbn [mapM]. destruct x as [d|v]; [| by right].
    cbn [call_json_repr_to_html mbind result_bind].
    destruct IH as [[s Hs] | Hs].
    + left. destruct (mapM (call_json_repr_to_html args) l); [by eexists | done].
    + right. by destruct (mapM (call_json_repr_to_html args) l).
Qed.

Lemma convert_links_to_html_AttributeError (all_links : list item) :
  (1 ≤ max_button_per_line args)%Z →
  Exists (λ x, is_record x = false ∧ item_truthy x = true) all_links →
  convert_links_to_html all_links args = Raise AttributeError.
Proof.
  intros HK Hbad. unfold convert_links_to_html.
  rewrite grouper_total by done. cbn [mbind result_bind].
  set (n := Z.to_nat (max_button_per_line args)).
  assert (0 < n) as Hn by (subst n; lia).
  fold (render_line args).
  apply Exists_exists in Hbad as (x & Hx & Hrec & Htrue).
  destruct (chunks_upto_In (length all_links) n all_links [] x Hn (le_n _) Hx)
    as (g & Hg & Hxg).
  assert (render_line args (padded n (IVal PNone) g) = Raise AttributeError) as Hline.
  { unfold render_line.
    rewrite (mapM_result_Exists_Raise (call_json_repr_to_html args) AttributeError);
      [done | |].
    - intros [d|v]; [left; by eexists | by right].
    - apply Exists_exists. exists x. split.
      + apply list_elem_of_In, filter_In. split; [| done].
        apply list_elem_of_In. unfold padded. apply elem_of_app. by left.
      + by destruct x. }
  rewrite (mapM_result_Exists_Raise (render_line args) AttributeError);
    [done | apply line_Ok_or_AttributeError |].
  apply Exists_exists. exists (padded n (IVal PNone) g). split; [| done].
  by apply list_elem_of_fmap_2.
Qed.

(** X3: for [K >= 1] the grid is built when every element of the tuple of
    links is a record or is false in Python (null, 0, an empty string, an
    empty list: such elements are skipped like the padding); one element
    that is neither, a non-empty string for instance, ends the rendering
    with [AttributeError], since it has no [get]. *)
Theorem non_record_elements (all_links : list item) :
  (1 ≤ max_button_per_line args)%Z →
  (Forall (λ x, is_record x = true ∨ item_truthy x = false) all_links →
     ∃ html, convert_links_to_html all_links args = Ok html)
  ∧ (Exists (λ x, is_record x = false ∧ item_truthy x = true) all_links →
     convert_links_to_html all_links args = Raise AttributeError).
Proof.
  intros HK. split.
  - intros Hall. unfold convert_links_to_html.
    rewrite grouper_total by done. cbn [mbind result_bind].
    set (n := Z.to_nat (max_button_per_line args)).
    assert (0 < n) as Hn by (subst n; lia).
    fold (render_line args).
    destruct (mapM_result_Forall_Ok (render_line args)
                (padded n (IVal PNone) <$> chunks n all_links))
      as [html ->]; [| by eexists].
    apply Forall_fmap, Forall_forall. intros g Hg. cbn [compose]. unfold render_line.
    destruct (mapM_result_Forall_Ok (call_json_repr_to_html args)
                (List.filter item_truthy (padded n (IVal PNone) g))) as [frags ->];
      [| by eexists].
    apply Forall_forall. intros x Hx.
    apply list_elem_of_In, filter_In in Hx as [Hx Htrue].
    apply list_elem_of_In in Hx. unfold padded in Hx.
    apply elem_of_app in Hx as [Hx | Hx].
    + pose proof (chunks_upto_Forall _ (length all_links) n all_links Hn (le_n _) Hall)
        as Hchunks.
      rewrite Forall_forall in Hchunks. specialize (Hchunks g Hg).
      rewrite Forall_forall in Hchunks. destruct (Hchunks x Hx) as [Hrec | Hfalse].
      * destruct x; [by eexists | done].
      * congruence.
    + apply elem_of_replicate_inv in Hx. by subst x.
  - by apply convert_links_to_html_AttributeError.
Qed.
End grid_elements.

Lemma non_record_elements_witness :
  convert_links_to_html [IVal PNone; IDict (record_of "CV" "home" "/"); IVal (PStr "text")]
    (parse_cli_defaults ["links.json"])
  = Raise AttributeError.
Proof.
  apply non_record_elements.
  - vm_compute. discriminate.
  - do 2 apply Exists_cons_tl. apply Exists_cons_hd. split; reflexivity.
Defined.

(** X4: when no record is an empty dictionary, every record has its
    button in the grid: the fragments of all the records, in input order,
    cut into lines. *)
Theorem nonempty_records_all_rendered (recs : list (gmap string pyval)) (args : Namespace) :
  (1 ≤ max_button_per_line args)%Z →
  Forall (λ d, d ≠ ∅) recs →
  ∃ groups : list (list (gmap string pyval)),
    concat groups = recs
    ∧ convert_links_to_html (IDict <$> recs) args
      = Ok (String.concat "<br/>"
              ((λ g, String.concat nl ((λ d, json_repr_to_html d args) <$> g)) <$> groups)).
Proof.
  intros HK Hne.
  set (n := Z.to_nat (max_button_per_line args)).
  assert (0 < n) as Hn by (subst n; lia).
  exists (chunks n recs). split; [by apply chunks_upto_concat |].
  rewrite convert_links_to_html_lines by done. fold n. do 2 f_equal.
  apply Forall_fmap_ext, Forall_forall. intros g Hg.
  pose proof (chunks_upto_Forall _ (length recs) n recs Hn (le_n _) Hne) as Hchunks.
  rewrite Forall_forall in Hchunks. specialize (Hchunks g Hg).
  unfold line_html. do 2 f_equal. clear Hg.
  induction Hchunks as [|d g' Hd _ IH]; [done |].
  cbn [List.filter]. rewrite bool_decide_eq_false_2 by done. cbn [negb]. by rewrite IH.
Qed.

Lemma nonempty_records_all_rendered_witness :
  let args := parse_cli_defaults ["links.json"] in
  let a := record_of "A" "home" "/a" in
  let b := <["color" := PStr "Pink"]> ∅ in
  ∃ groups : list (list (gmap string pyval)),
    concat groups = [a; b]
    ∧ convert_links_to_html (IDict <$> [a; b]) args
      = Ok (String.concat "<br/>"
              ((λ g, String.concat nl ((λ d, json_repr_to_html d args) <$> g)) <$> groups)).
Proof.
  intros args a b. apply nonempty_records_all_rendered.
  - vm_compute. discriminate.
  - repeat constructor; apply insert_non_empty.
Defined.

(** ** The grid of several files *)

Lemma chunks_upto_bound {A} (b1 b2 n : nat) (l : list A) :
  0 < n → length l ≤ b1 → length l ≤ b2 → chunks_upto b1 n l = chunks_upto b2 n l.
Proof.
  intros Hn. revert b2 l. induction b1 as [|b1 IH]; intros b2 l H1 H2.
  - destruct l; [| simpl in H1; lia]. by rewrite !chunks_upto_nil.
  - destruct l as [|x l]; [by rewrite !chunks_upto_nil |].
    destruct b2 as [|b2]; [simpl in H2; lia |].
    cbn [chunks_upto]. f_equal.
    apply IH; rewrite length_drop; simpl in *; lia.
Qed.

Lemma chunks_step {A} (n : nat) (l : list A) :
  0 < n → l ≠ [] → chunks n l = take n l :: chunks n (drop n l).
Proof.
  intros Hn Hl. unfold chunks. destruct l as [|x l]; [done |].
  cbn [length chunks_upto]. f_equal.
  apply chunks_upto_bound; [done | | done]. rewrite length_drop. simpl. lia.
Qed.

(** The groups of a list that starts with complete groups. *)
Lemma chunks_app_full {A} (m n : nat) (a b : list A) :
  0 < n → length a = m * n → chunks n (a ++ b) = chunks n a ++ chunks n b.
Proof.
  intros Hn. revert a. induction m as [|m IH]; intros a Ha.
  - by destruct a.
  - assert (n ≤ length a) as Hle by lia.
    assert (a ≠ []) as Hne by (intros ->; simpl in *; lia).
    rewrite (chunks_step n (a ++ b)) by (done || by destruct a).
    rewrite (chunks_step n a) by done.
    rewrite take_app_le, drop_app_le by done.
    rewrite IH by (rewrite length_drop; lia). done.
Qed.

Lemma concat_sep_app (sep : string) (x y : list string) :
  x ≠ [] → y ≠ [] →
  String.concat sep (x ++ y) = String.concat sep x +:+ sep +:+ String.concat sep y.
Proof.
  intros Hx Hy. induction x as [|s x IH]; [done |].
  destruct x as [|s' x].
  - destruct y; [done | reflexivity].
  - change (String.concat sep ((s :: s' :: x) ++ y))
      with (s +:+ sep +:+ String.concat sep ((s' :: x) ++ y)).
    rewrite IH by done.
    change (String.concat sep (s :: s' :: x))
      with (s +:+ sep +:+ String.concat sep (s' :: x)).
    by rewrite !append_assoc.
Qed.

(** X5: when the records of the first files fill complete lines, the grid
    of all the records is the grid of the first ones, a ["<br/>"], and the
    grid of the others: records that follow never change the lines before
    them. *)
Theorem grid_append_full_lines (a b : list (gmap string pyval)) (args : Namespace) (m : nat) :
  (1 ≤ max_button_per_line args)%Z →
  length a = m * Z.to_nat (max_button_per_line args) →
  a ≠ [] → b ≠ [] →
  ∃ grid_a grid_b,
    convert_links_to_html (IDict <$> a) args = Ok grid_a
    ∧ convert_links_to_html (IDict <$> b) args = Ok grid_b
    ∧ convert_links_to_html (IDict <$> (a ++ b)) args
      = Ok (grid_a +:+ "<br/>" +:+ grid_b).
Proof.
  intros HK Hlen Ha Hb.
  set (n := Z.to_nat (max_button_per_line args)) in *.
  assert (0 < n) as Hn by (subst n; lia).
  rewrite !convert_links_to_html_lines by done. fold n.
  do 2 eexists. split; [done | split; [done |]].
  rewrite (chunks_app_full m) by done.
  rewrite fmap_app, concat_sep_app; [done | |].
  - rewrite chunks_step by done. done.
  - rewrite chunks_step by done. done.
Qed.

Lemma grid_append_full_lines_witness :
  let args := parse_cli_defaults ["one.csv"; "two.csv"] in
  let a := [record_of "A" "home" "/a"; record_of "B" "home" "/b"] in
  let b := [record_of "C" "home" "/c"] in
  ∃ grid_a grid_b,
    convert_links_to_html (IDict <$> a) args = Ok grid_a
    ∧ convert_links_to_html (IDict <$> b) args = Ok grid_b
    ∧ convert_links_to_html (IDict <$> (a ++ b)) args
      = Ok (grid_a +:+ "<br/>" +:+ grid_b).
Proof.
  intros args a b. apply (grid_append_full_lines a b args 1).
  - vm_compute. discriminate.
  - reflexivity.
  - discriminate.
  - discriminate.
Defined.

(** ** What the renderer reads *)

(** X6: [json_repr_to_html] reads the seven known keys and nothing else:
    any other key of a record is ignored, whatever its value. *)
Theorem unknown_keys_ignored (d : gmap string pyval) (args : Namespace)
    (key : string) (v : pyval) :
  key ∉ known_keys →
  json_repr_to_html (<[key := v]> d) args = json_repr_to_html d args.
Proof.
  intros Hkey. unfold known_keys in Hkey.
  repeat (apply not_elem_of_cons in Hkey as [? Hkey]).
  unfold json_repr_to_html, get.
  by rewrite !lookup_insert_ne.
Qed.

Lemma unknown_keys_ignored_witness :
  json_repr_to_html (<["title" := PStr "My CV"]> (record_of "CV" "home" "/"))
    (parse_cli_defaults ["links.json"])
  = json_repr_to_html (record_of "CV" "home" "/") (parse_cli_defaults ["links.json"]).
Proof.
  apply unknown_keys_ignored. unfold known_keys.
  repeat (apply not_elem_of_cons; split; [discriminate |]). apply not_elem_of_nil.
Defined.

Lemma json_repr_to_html_defaults (d : gmap string pyval) (args args' : Namespace) :
  button_color args = button_color args' →
  json_repr_to_html d args = json_repr_to_html d args'.
Proof.
  intros Hcolor. unfold json_repr_to_html, convert_link_to_html. by rewrite Hcolor.
Qed.

Lemma convert_links_to_html_defaults (all_links : list item) (args args' : Namespace) :
  max_button_per_line args = max_button_per_line args' →
  button_color args = button_color args' →
  convert_links_to_html all_links args = convert_links_to_html all_links args'.
Proof.
  intros HK Hcolor. unfold convert_links_to_html. rewrite HK.
  destruct (grouper all_links (max_button_per_line args') (IVal PNone)) as [lines|e];
    [| done].
  cbn [mbind result_bind].
  rewrite (mapM_result_ext _ (render_line args')); [done |].
  intros line_links. unfold render_line.
  rewrite (mapM_result_ext _ (call_json_repr_to_html args')); [done |].
  intros [d|v]; [| done]. cbn [call_json_repr_to_html].
  by rewrite (json_repr_to_html_defaults d args args').
Qed.

(** X7: of the command line options, the markup of the buttons depends on
    the number of buttons per line and on the default button color only;
    and [--fontsize] changes nothing at all in a run, neither its result
    nor a file it writes. *)
Theorem unused_options `{Libraries} (args args' : Namespace) :
  (max_button_per_line args = max_button_per_line args' →
   button_color args = button_color args' →
   ∀ all_links,
     convert_links_to_html all_links args = convert_links_to_html all_links args')
  ∧ (∀ z fs, main (with_fontsize z args) fs = main args fs).
Proof.
  split.
  - intros HK Hcolor all_links. by apply convert_links_to_html_defaults.
  - intros z fs. unfold main. cbn [with_fontsize infiles outdir template_dir].
    destruct (sum_links fs (infiles args) []) as [links|e]; [| done].
    by rewrite (convert_links_to_html_defaults links (with_fontsize z args) args).
Qed.

Lemma unused_options_witness :
  convert_links_to_html [IDict (record_of "CV" "home" "/")] Demo.build_args
  = convert_links_to_html [IDict (record_of "CV" "home" "/")]
      (parse_cli_defaults ["other.json"]).
Proof.
  apply (proj1 (@unused_options Demo.libs Demo.build_args
                  (parse_cli_defaults ["other.json"]))); reflexivity.
Defined.

(** ** Records of a CSV file *)

Lemma record_of_markup (text icon url : string) (args : Namespace) :
  json_repr_to_html (record_of text icon url) args = button_markup url icon text "".
Proof.
  rewrite json_repr_to_html_markup. unfold get, record_of.
  rewrite ?lookup_insert_eq, ?lookup_insert_ne, ?lookup_empty by done.
  rewrite ?lookup_insert_eq, ?lookup_insert_ne, ?lookup_empty by done.
  rewrite ?lookup_insert_eq, ?lookup_insert_ne, ?lookup_empty by done.
  reflexivity.
Qed.

Section csv_records.
Context `{Libraries}.

Lemma mapM_rows_records (rows : list (list string)) (links : list item) :
  mapM (M := result) (λ a,
    text ← index a 0; icon ← index a 1; url ← index a 2;
    Ok (IDict (<["text" := PStr text]>
               (<["fa icon" := PStr icon]> (<["url" := PStr url]> ∅))))) rows
  = Ok links →
  Forall2 (λ a x, ∃ text icon url rest,
             a = text :: icon :: url :: rest
             ∧ x = IDict (record_of text icon url)) rows links.
Proof.
  revert links. induction rows as [|a rows IH]; intros links Hlinks.
  - injection Hlinks as <-. constructor.
  - cbn [mapM] in Hlinks.
    destruct a as [|t [|i [|u rest]]]; try discriminate.
    cbn in Hlinks.
    destruct (mapM _ rows) as [links'|e] eqn:Hrows; [| discriminate].
    injection Hlinks as <-. constructor; [by exists t, i, u, rest | by apply IH].
Qed.

(** X8: when a CSV file loads, its records are those of the rows the
    reader yields, one for each row and in the same order.  The record of
    a row has its button in the grid (it is never taken for padding), and
    this button has no inline style and no mouse attribute; its text, icon
    and URL are the first, second and third field of the row as they are,
    the empty string included: the defaults [home] and [/] are for missing
    keys and a CSV record misses none of the three. *)
Theorem csv_records_plain (fs : filesystem) (infile content : string)
    (rows : list (list string)) (stop : option exn) (links : list item)
    (args : Namespace) :
  endswith infile ".csv" = true →
  read_file fs infile = Ok content →
  csv_reader content = (rows, stop) →
  links_repr_from_file fs infile = Ok links →
  Forall2 (λ a x, ∃ text icon url rest,
             a = text :: icon :: url :: rest
             ∧ x = IDict (record_of text icon url)
             ∧ item_truthy x = true
             ∧ call_json_repr_to_html args x
               = Ok (button_markup url icon text "")) rows links.
Proof.
  intros Hext Hread Hreader. unfold links_repr_from_file.
  rewrite Hext, Hread. cbn [mbind result_bind]. rewrite Hreader.
  destruct (mapM _ rows) as [links'|e] eqn:Hrows; [| done].
  cbn [mbind result_bind]. destruct stop; [done |]. intros [= <-].
  apply mapM_rows_records in Hrows.
  eapply Forall2_impl; [exact Hrows |].
  intros a x (t & i & u & rest & -> & ->).
  exists t, i, u, rest. split; [done |]. split; [done |]. split.
  - cbn [item_truthy]. rewrite bool_decide_eq_false_2; [done |].
    apply insert_non_empty.
  - cbn [call_json_repr_to_html]. by rewrite record_of_markup.
Qed.
End csv_records.

Lemma csv_records_plain_witness :
  Forall2 (λ a x, ∃ text icon url rest,
             a = text :: icon :: url :: rest
             ∧ x = IDict (record_of text icon url)
             ∧ item_truthy x = true
             ∧ call_json_repr_to_html Demo.build_args x
               = Ok (button_markup url icon text ""))
    [["CV"; "home"; "https://x"]]
    [IDict (record_of "CV" "home" "https://x")].
Proof.
  apply (@csv_records_plain Demo.libs Demo.fs_links "links.csv" "CV,home,https://x"
           [["CV"; "home"; "https://x"]] None); reflexivity.
Defined.

(** ** Several input files, and files that are not an array of records *)

Section inputs.
Context `{Libraries}.

(** X9: when every input file loads, the records handed to the grid are
    those of the files, file after file in the order of the command line,
    each file's records in their own order: nothing is sorted, merged or
    dropped between files. *)
Theorem input_files_concatenated (fs : filesystem) (infiles : list string)
    (ls : list (list item)) :
  Forall2 (λ infile links, links_repr_from_file fs infile = Ok links) infiles ls →
  sum_links fs infiles [] = Ok (concat ls).
Proof.
  intros Hall.
  enough (∀ start, sum_links fs infiles start = Ok (start ++ concat ls)) as Hsum
    by apply (Hsum []).
  induction Hall as [|f l infiles ls Hf _ IH]; intros start.
  - cbn. by rewrite app_nil_r.
  - cbn [sum_links concat]. rewrite Hf. cbn [mbind result_bind].
    by rewrite IH, app_assoc.
Qed.

(** X10: a JSON file whose top level is not an array is not refused by
    the loader.  In a run with this file as its only input and with
    [K >= 1]: a number, [true], [false] or [null] ends the run with
    [TypeError]; an object with a key other than the empty string, loaded
    as the tuple of its keys, and a string other than the empty one, loaded
    as the tuple of its characters, end the run with [AttributeError] in
    the renderer.  In each case no file is written. *)
Theorem json_top_level_not_array (args : Namespace) (fs : filesystem)
    (infile content : string) :
  infiles args = [infile] →
  endswith infile ".csv" = false →
  endswith infile ".json" = true →
  read_file fs infile = Ok content →
  (1 ≤ max_button_per_line args)%Z →
  (json_loads content = Ok JScalar → main args fs = (Raise TypeError, fs))
  ∧ (∀ keys, json_loads content = Ok (JObject keys) →
       Exists (λ k, k ≠ "") keys → main args fs = (Raise AttributeError, fs))
  ∧ (∀ s, json_loads content = Ok (JString s) →
       s ≠ "" → main args fs = (Raise AttributeError, fs)).
Proof.
  intros Hfiles Hcsv Hjson Hread HK.
  assert (∀ v, json_loads content = Ok v →
            sum_links fs (infiles args) [] = links ← tuple v; Ok links) as Hsum.
  { intros v Hv. rewrite Hfiles. cbn [sum_links]. unfold links_repr_from_file.
    rewrite Hcsv, Hjson, Hread. cbn [mbind result_bind]. rewrite Hv.
    cbn [mbind result_bind]. by destruct (tuple v). }
  split; [| split].
  - intros Hv. unfold main. by rewrite (Hsum _ Hv).
  - intros keys Hv Hkeys. unfold main. rewrite (Hsum _ Hv).
    cbn [tuple mbind result_bind].
    rewrite convert_links_to_html_AttributeError; [done | done |].
    apply Exists_fmap. eapply Exists_impl; [exact Hkeys |].
    intros k Hk. split; [done |]. cbn. by apply negb_true_iff, String.eqb_neq.
  - intros s Hv Hs. unfold main. rewrite (Hsum _ Hv).
    cbn [tuple mbind result_bind].
    rewrite convert_links_to_html_AttributeError; [done | done |].
    destruct s as [|c s]; [done |]. cbn [list_ascii_of_string fmap list_fmap].
    by apply Exists_cons_hd.
Qed.
End inputs.

Lemma input_files_concatenated_witness :
  @sum_links Demo.libs Demo.fs_links ["links.json"; "links.csv"] []
  = Ok [IDict (record_of "CV" "home" "https://x");
        IDict (record_of "CV" "home" "https://x")].
Proof.
  apply (@input_files_concatenated Demo.libs Demo.fs_links ["links.json"; "links.csv"]
           [[IDict (record_of "CV" "home" "https://x")];
            [IDict (record_of "CV" "home" "https://x")]]).
  repeat constructor.
Defined.

Lemma json_top_level_not_array_witness :
  @main Shapes.libs (parse_cli_defaults ["links.json"]) Shapes.fs_null
  = (Raise TypeError, Shapes.fs_null).
Proof.
  apply (proj1 (@json_top_level_not_array Shapes.libs (parse_cli_defaults ["links.json"])
                  Shapes.fs_null "links.json" "null" eq_refl eq_refl eq_refl eq_refl
                  ltac:(vm_compute; discriminate))).
  reflexivity.
Defined.

(** ** What a run writes *)

Lemma put_file_other fs dir name content p :
  p ≠ path_join dir name → files (put_file fs dir name content) !! p = files fs !! p.
Proof. intros Hp. cbn [put_file files]. by rewrite lookup_insert_ne. Qed.

Lemma page_path_not_css (dir css : string) :
  endswith css "index.html" = false → path_join dir "index.html" ≠ css.
Proof.
  intros Hcss Heq. pose proof (endswith_path_join dir "index.html") as He.
  rewrite Heq in He. congruence.
Qed.

Section effects.
Context `{Libraries}.

(** X11: whatever its outcome, a call of the writer touches at most the
    file it is to write.  When it fails, the file system is as before, or
    differs by that one file being empty: [open(..., 'w')] has emptied it
    when the rendering raises.  When it succeeds the file holds the
    rendered text.  In both cases of a change the target is a
    directory that was there before. *)
Theorem render_template_effect (name tdir target : string)
    (vars : list (string * tvalue)) (fs fs' : filesystem) (r : result unit) :
  render_template name tdir target vars fs = (r, fs') →
  (r ≠ Ok () ∧ fs' = fs)
  ∨ (target ∈ dirs fs ∧
     ((∃ e, r = Raise e ∧ fs' = put_file fs target name "")
      ∨ (∃ source tpl text,
           r = Ok ()
           ∧ read_file fs (path_join tdir name) = Ok source
           ∧ Template source = Ok tpl
           ∧ render tpl vars = Ok text
           ∧ fs' = put_file fs target name text))).
Proof.
  unfold render_template.
  destruct (negb (path_exists fs target)); [intros ?; simplify_eq; by left |].
  destruct (read_file fs (path_join tdir name)) as [src|e] eqn:Hread;
    cbn [mbind result_bind]; [| intros ?; simplify_eq; by left].
  destruct (Template src) as [tpl|e] eqn:Htpl; [| intros ?; simplify_eq; by left].
  unfold open_write.
  destruct (bool_decide (target ∈ dirs fs)) eqn:Hdir.
  - apply bool_decide_eq_true in Hdir.
    destruct (bool_decide (path_join target name ∈ dirs fs));
      [intros ?; simplify_eq; by left |].
    destruct (render tpl vars) as [text|e] eqn:Htext; intros ?; simplify_eq;
      right; (split; [done |]).
    + right. exists src, tpl, text. by rewrite put_file_put_file.
    + left. by exists e.
  - destruct (path_exists fs target); intros ?; simplify_eq; by left.
Qed.

(** A call of the writer leaves every other file as it is. *)
Lemma render_template_frame name tdir target vars fs p :
  p ≠ path_join target name →
  files (render_template name tdir target vars fs).2 !! p = files fs !! p.
Proof.
  intros Hp. unfold render_template.
  destruct (negb (path_exists fs target)); [done |].
  destruct (read_file fs (path_join tdir name)) as [src|e];
    cbn [mbind result_bind]; [| done].
  destruct (Template src) as [tpl|e]; [| done].
  unfold open_write.
  destruct (bool_decide (target ∈ dirs fs)).
  - destruct (bool_decide (path_join target name ∈ dirs fs)); [done |].
    destruct (render tpl vars); cbn [snd]; by rewrite !put_file_other.
  - by destruct (path_exists fs target).
Qed.

(** X12: whatever its outcome, a run changes no file other than
    [index.html] in the configured output directory and [out/index.css]:
    the input files and the templates are safe as long as they are not
    one of these two. *)
Theorem main_frame (args : Namespace) (fs : filesystem) (p : string) :
  p ≠ path_join (outdir args) "index.html" →
  p ≠ "out/index.css" →
  files (main args fs).2 !! p = files fs !! p.
Proof.
  intros Hpage Hcss. unfold main.
  destruct (sum_links fs (infiles args) []) as [links|e]; [| done].
  destruct (convert_links_to_html links args) as [html|e]; [| done].
  pose proof (render_template_frame "index.html" (template_dir args) (outdir args)
                (page_variables html) fs p Hpage) as Hfirst.
  destruct (render_template "index.html" _ _ _ fs) as [[[]|e] fs1]; [| done].
  cbn [snd] in Hfirst. rewrite <- Hfirst.
  by apply render_template_frame.
Qed.

(** X13: when the first call of the writer has written the page, a
    failure of the second call, whatever its cause (no directory [out/],
    no [templates/index.css], an error of the template), ends the run with
    that exception and leaves the page written: nothing is rolled back. *)
Theorem page_kept_when_stylesheet_fails (args : Namespace) (fs fs1 fs' : filesystem)
    (links : list item) (html : string) (e : exn) :
  sum_links fs (infiles args) [] = Ok links →
  convert_links_to_html links args = Ok html →
  render_template "index.html" (template_dir args) (outdir args)
    (page_variables html) fs = (Ok (), fs1) →
  render_template "index.css" "templates/" "out/" (css_variables args) fs1
  = (Raise e, fs') →
  main args fs = (Raise e, fs')
  ∧ ∃ source tpl page,
      Template source = Ok tpl
      ∧ render tpl (page_variables html) = Ok page
      ∧ files fs' !! path_join (outdir args) "index.html" = Some page.
Proof.
  intros Hlinks Hhtml Hpage Hcss. split.
  - unfold main. by rewrite Hlinks, Hhtml, Hpage.
  - apply render_template_Ok in Hpage as (src & tpl & page & _ & Htpl & Hrender & ->).
    exists src, tpl, page. split; [done | split; [done |]].
    pose proof (render_template_frame "index.css" "templates/" "out/" (css_variables args)
                  (put_file fs (outdir args) "index.html" page)
                  (path_join (outdir args) "index.html")) as Hframe.
    rewrite Hcss in Hframe. cbn [snd] in Hframe. rewrite Hframe.
    + cbn [put_file files]. by rewrite lookup_insert_eq.
    + by apply page_path_not_css.
Qed.

(** X14: with the default directories ([--outdir out/] and
    [--template-dir templates/], as [parse_cli] sets them) a run that
    succeeds has filled both templates of the template directory and
    written both files to the output directory. *)
Theorem default_directories_both_written (args : Namespace) (fs fs' : filesystem) :
  outdir args = "out/" →
  template_dir args = "templates/" →
  main args fs = (Ok (), fs') →
  ∃ html source_page tpl_page page source_css tpl_css sheet,
    files fs !! path_join (template_dir args) "index.html" = Some source_page
    ∧ Template source_page = Ok tpl_page
    ∧ render tpl_page (page_variables html) = Ok page
    ∧ files fs' !! path_join (outdir args) "index.html" = Some page
    ∧ files fs !! path_join (template_dir args) "index.css" = Some source_css
    ∧ Template source_css = Ok tpl_css
    ∧ render tpl_css (css_variables args) = Ok sheet
    ∧ files fs' !! path_join (outdir args) "index.css" = Some sheet.
Proof.
  intros Hout Htdir Hmain.
  destruct (main_Ok _ _ _ Hmain) as (links & html & fs1 & _ & _ & Hpage & Hcss).
  rewrite Hout, Htdir in *.
  apply render_template_Ok in Hpage as (src0 & tpl0 & page & Hread0 & Htpl0 & Hrender0 & ->).
  apply render_template_Ok in Hcss as (src1 & tpl1 & sheet & Hread1 & Htpl1 & Hrender1 & ->).
  exists html, src0, tpl0, page, src1, tpl1, sheet.
  rewrite read_file_put_file in Hread1 by (vm_compute; discriminate).
  apply read_file_Ok in Hread0, Hread1.
  repeat split; try done.
  - rewrite put_file_other by (vm_compute; discriminate).
    cbn [put_file files]. by rewrite lookup_insert_eq.
  - cbn [put_file files]. by rewrite lookup_insert_eq.
Qed.
End effects.

Lemma render_template_effect_witness :
  let fs := Demo.fs_links in
  let text := "<html>" +:+ "<b>" in
  (Ok () ≠ Ok () ∧ put_file fs "build/" "index.html" text = fs)
  ∨ ("build/" ∈ dirs fs ∧
     ((∃ e, Ok () = Raise e
            ∧ put_file fs "build/" "index.html" text = put_file fs "build/" "index.html" "")
      ∨ (∃ source tpl text',
           Ok () = Ok ()
           ∧ read_file fs (path_join "templates/" "index.html") = Ok source
           ∧ @Template Demo.libs source = Ok tpl
           ∧ @render Demo.libs tpl (page_variables "<b>") = Ok text'
           ∧ put_file fs "build/" "index.html" text
             = put_file fs "build/" "index.html" text'))).
Proof.
  intros fs text.
  apply (@render_template_effect Demo.libs "index.html" "templates/" "build/"
           (page_variables "<b>") fs (put_file fs "build/" "index.html" text) (Ok ())).
  vm_compute. reflexivity.
Defined.

Lemma main_frame_witness :
  files (Demo.main Demo.build_args Demo.fs_links).2 !! "links.csv"
  = files Demo.fs_links !! "links.csv".
Proof.
  apply (@main_frame Demo.libs Demo.build_args Demo.fs_links "links.csv");
    vm_compute; discriminate.
Defined.

Lemma page_kept_when_stylesheet_fails_witness :
  let html := json_repr_to_html (record_of "CV" "home" "https://x") Demo.build_args in
  let fs1 := put_file Shapes.fs_no_css "build/" "index.html" ("<html>" +:+ html) in
  Demo.main Demo.build_args Shapes.fs_no_css
  = (Raise (FileNotFoundError "templates/index.css"), fs1).
Proof.
  intros html fs1.
  refine (proj1 (@page_kept_when_stylesheet_fails Demo.libs Demo.build_args
                   Shapes.fs_no_css fs1 fs1 [IDict (record_of "CV" "home" "https://x")]
                   html (FileNotFoundError "templates/index.css") _ _ _ _));
    vm_compute; reflexivity.
Defined.

Lemma default_directories_both_written_witness :
  let fs' := (Demo.main (parse_cli_defaults ["links.csv"]) Demo.fs_links).2 in
  ∃ html source_page tpl_page page source_css tpl_css sheet,
    files Demo.fs_links !! path_join "templates/" "index.html" = Some source_page
    ∧ @Template Demo.libs source_page = Ok tpl_page
    ∧ @render Demo.libs tpl_page (page_variables html) = Ok page
    ∧ files fs' !! path_join "out/" "index.html" = Some page
    ∧ files Demo.fs_links !! path_join "templates/" "index.css" = Some source_css
    ∧ @Template Demo.libs source_css = Ok tpl_css
    ∧ @render Demo.libs tpl_css (css_variables (parse_cli_defaults ["links.csv"]))
      = Ok sheet
    ∧ files fs' !! path_join "out/" "index.css" = Some sheet.
Proof.
  intros fs'.
  apply (@default_directories_both_written Demo.libs (parse_cli_defaults ["links.csv"])
           Demo.fs_links fs' eq_refl eq_refl).
  vm_compute. reflexivity.
Defined.

Lemma main_missing_outdir_witness :
  ∃ e, Demo.main Demo.build_args Shapes.fs_no_build = (Raise e, Shapes.fs_no_build).
Proof. apply (@main_missing_outdir Demo.libs). vm_compute. reflexivity. Defined.

(** ** The two extreme widths of the grid *)

Lemma chunks_one {A} (l : list A) : chunks 1 l = (λ x, [x]) <$> l.
Proof.
  induction l as [|x l IH]; [done |].
  rewrite chunks_step by (lia || done). cbn [take drop fmap list_fmap].
  by rewrite ?take_0, ?drop_0, IH.
Qed.

Lemma chunks_wide {A} (n : nat) (l : list A) : 0 < length l ≤ n → chunks n l = [l].
Proof.
  intros Hl. rewrite chunks_step by (lia || (intros ->; simpl in Hl; lia)).
  by rewrite take_ge, drop_ge by lia.
Qed.

Lemma line_html_nonempty (args : Namespace) (g : list (gmap string pyval)) :
  Forall (λ d, d ≠ ∅) g →
  line_html args g = String.concat nl ((λ d, json_repr_to_html d args) <$> g).
Proof.
  intros Hg. unfold line_html. do 2 f_equal.
  induction Hg as [|d g Hd _ IH]; [done |].
  cbn [List.filter]. rewrite bool_decide_eq_false_2 by done. cbn [negb]. by rewrite IH.
Qed.

(** X16: with one button per line the grid is the fragments of the
    records joined by ["<br/>"], without any line feed; when all the
    records fit in one line it is the fragments joined by a line feed,
    without any ["<br/>"] (no record is an empty dictionary). *)
Theorem grid_extreme_widths (recs : list (gmap string pyval)) (args : Namespace) :
  Forall (λ d, d ≠ ∅) recs →
  (max_button_per_line args = 1%Z →
   convert_links_to_html (IDict <$> recs) args
   = Ok (String.concat "<br/>" ((λ d, json_repr_to_html d args) <$> recs)))
  ∧ (0 < length recs → (Z.of_nat (length recs) ≤ max_button_per_line args)%Z →
     convert_links_to_html (IDict <$> recs) args
     = Ok (String.concat nl ((λ d, json_repr_to_html d args) <$> recs))).
Proof.
  intros Hne. split.
  - intros HK. rewrite convert_links_to_html_lines by lia.
    rewrite HK. change (Z.to_nat 1) with 1. rewrite chunks_one.
    rewrite <- list_fmap_compose. do 2 f_equal.
    apply Forall_fmap_ext. eapply Forall_impl; [exact Hne |].
    intros d Hd. cbn [compose]. rewrite line_html_nonempty by (by constructor).
    reflexivity.
  - intros Hlen HK. rewrite convert_links_to_html_lines by lia.
    rewrite chunks_wide by lia. cbn [fmap list_fmap String.concat].
    by rewrite line_html_nonempty.
Qed.

Lemma grid_extreme_widths_witness :
  let args := parse_cli_defaults ["links.json"] in
  let a := record_of "A" "home" "/a" in
  let b := record_of "B" "home" "/b" in
  convert_links_to_html (IDict <$> [a; b]) args
  = Ok (String.concat nl ((λ d, json_repr_to_html d args) <$> [a; b])).
Proof.
  intros args a b.
  apply (proj2 (grid_extreme_widths [a; b] args
                  ltac:(repeat constructor; apply insert_non_empty))).
  - simpl. lia.
  - vm_compute. discriminate.
Defined.


(** ** Groups of the grid and empty records *)

(** Without an empty dictionary among the records the grid is as the
    groups are: ceil(N/K) consecutive groups of [K] records, the last one
    possibly shorter, the fragments of a group joined by a line feed and
    the groups by one ["<br/>"]. *)
Lemma grid_partition_nonempty (recs : list (gmap string pyval)) (args : Namespace) :
  (1 ≤ max_button_per_line args)%Z →
  Forall (λ d, d ≠ ∅) recs →
  let K := Z.to_nat (max_button_per_line args) in
  ∃ groups : list (list (gmap string pyval)),
    concat groups = recs
    ∧ length groups = ceil_div (length recs) K
    ∧ (∀ i g, groups !! i = Some g →
         0 < length g ≤ K ∧ (S i < length groups → length g = K))
    ∧ convert_links_to_html (IDict <$> recs) args
      = Ok (String.concat "<br/>"
              ((λ g, String.concat nl ((λ d, json_repr_to_html d args) <$> g))
                 <$> groups)).
Proof.
  intros HK Hne K.
  assert (0 < K) as HK0 by (subst K; lia).
  exists (chunks K recs). unfold chunks. split; [| split; [| split]].
  - by apply chunks_upto_concat.
  - by apply chunks_upto_length.
  - intros i g Hg. by eapply chunks_upto_sizes.
  - rewrite convert_links_to_html_lines by done. fold K. do 2 f_equal.
    apply Forall_fmap_ext, Forall_forall. intros g Hg.
    apply line_html_nonempty.
    pose proof (chunks_upto_Forall _ (length recs) K recs HK0 (le_n _) Hne) as Hchunks.
    rewrite Forall_forall in Hchunks. by apply Hchunks.
Qed.

(** C2, on the code: the groups of the grid are the claimed ones only as
    long as no record is an empty dictionary.  With [K = 2] and the records
    [{}], [a], [b], the first group is [{}], [a]; the filter meant for the
    fill values drops [{}], so the first line holds one button although it
    is not the last and the grid is the one of [a], [b] with one button per
    line, not the fragment of [{}], a line feed and the fragment of [a],
    then ["<br/>"] and the fragment of [b]. *)
Theorem empty_record_shifts_groups (a b : gmap string pyval) (args : Namespace) :
  max_button_per_line args = 2%Z → a ≠ ∅ → b ≠ ∅ →
  convert_links_to_html [IDict ∅; IDict a; IDict b] args
  = Ok (json_repr_to_html a args +:+ "<br/>" +:+ json_repr_to_html b args)
  ∧ convert_links_to_html [IDict ∅; IDict a; IDict b] args
    ≠ Ok ((json_repr_to_html ∅ args +:+ nl +:+ json_repr_to_html a args)
          +:+ "<br/>" +:+ json_repr_to_html b args).
Proof.
  intros HK Ha Hb.
  assert (convert_links_to_html [IDict ∅; IDict a; IDict b] args
          = Ok (json_repr_to_html a args +:+ "<br/>" +:+ json_repr_to_html b args))
    as Hgrid.
  { change [IDict ∅; IDict a; IDict b] with (IDict <$> [∅; a; b]).
    rewrite convert_links_to_html_lines by lia. rewrite HK.
    change (chunks (Z.to_nat 2) [∅; a; b]) with [[∅; a]; [b]].
    unfold line_html. cbn [fmap list_fmap List.filter].
    rewrite (bool_decide_eq_true_2 (∅ = ∅)) by done.
    rewrite !bool_decide_eq_false_2 by done. reflexivity. }
  split; [done |].
  rewrite Hgrid.
  generalize (json_repr_to_html a args), (json_repr_to_html b args),
    (json_repr_to_html ∅ args).
  intros fa fb f0 Heq. injection Heq as Heq.
  apply (f_equal String.length) in Heq.
  rewrite !length_append in Heq. change (String.length nl) with 1 in Heq. lia.
Qed.

Lemma empty_record_shifts_groups_witness :
  let args := parse_cli_defaults ["links.json"] in
  let a := record_of "A" "home" "/a" in
  let b := record_of "B" "home" "/b" in
  convert_links_to_html [IDict ∅; IDict a; IDict b] args
  = Ok (json_repr_to_html a args +:+ "<br/>" +:+ json_repr_to_html b args).
Proof.
  intros args a b.
  apply (proj1 (empty_record_shifts_groups a b args eq_refl
                  ltac:(apply insert_non_empty) ltac:(apply insert_non_empty))).
Defined.


(** ** Values of a record in the markup handed to the page template *)

Lemma occurs_refl (s : string) : occurs s s.
Proof. exists "", "". by rewrite append_nil_l, append_nil_r. Qed.

Lemma occurs_trans (a b c : string) : occurs a b → occurs b c → occurs a c.
Proof.
  intros (p & q & ->) (p' & q' & ->).
  exists (p' +:+ p), (q +:+ q'). by rewrite !append_assoc.
Qed.

Lemma occurs_concat (sep x : string) (l : list string) :
  x ∈ l → occurs x (String.concat sep l).
Proof.
  induction l as [|y l IH]; intros Hx; [by apply elem_of_nil in Hx |].
  destruct l as [|z l].
  - apply list_elem_of_singleton in Hx as ->. apply occurs_refl.
  - change (String.concat sep (y :: z :: l))
      with (y +:+ sep +:+ String.concat sep (z :: l)).
    apply elem_of_cons in Hx as [-> | Hx].
    + exists "", (sep +:+ String.concat sep (z :: l)). by rewrite append_nil_l.
    + destruct (IH Hx) as (p & q & ->).
      exists (y +:+ sep +:+ p), q. by rewrite !append_assoc.
Qed.

Lemma mapM_result_Ok_elem {A B} (f : A → result B) (l : list A) (bs : list B) (x : A) :
  mapM f l = Ok bs → x ∈ l → ∃ b, f x = Ok b ∧ b ∈ bs.
Proof.
  revert bs. induction l as [|y l IH]; intros bs Hl Hx; [by apply elem_of_nil in Hx |].
  cbn [mapM] in Hl.
  destruct (f y) as [b|e] eqn:Hy; [| done]. cbn [mbind result_bind] in Hl.
  destruct (mapM f l) as [bs'|e] eqn:Hl'; [| done]. injection Hl as <-.
  apply elem_of_cons in Hx as [-> | Hx].
  - exists b. split; [done | by left].
  - destruct (IH bs' eq_refl Hx) as (b' & Hb' & Hin). exists b'. split; [done | by right].
Qed.

(** The fragment of a record that is not empty appears in the grid. *)
Lemma convert_links_to_html_occurs (all_links : list item) (args : Namespace)
    (html : string) (d : gmap string pyval) :
  (1 ≤ max_button_per_line args)%Z →
  convert_links_to_html all_links args = Ok html →
  IDict d ∈ all_links → d ≠ ∅ →
  occurs (json_repr_to_html d args) html.
Proof.
  intros HK Hhtml Hd Hne. unfold convert_links_to_html in Hhtml.
  rewrite grouper_total in Hhtml by done. cbn [mbind result_bind] in Hhtml.
  set (n := Z.to_nat (max_button_per_line args)) in *.
  assert (0 < n) as Hn by (subst n; lia).
  fold (render_line args) in Hhtml.
  destruct (mapM (render_line args) (padded n (IVal PNone) <$> chunks n all_links))
    as [htmls|e] eqn:Hlines; [| done].
  injection Hhtml as <-.
  destruct (chunks_upto_In (length all_links) n all_links [] (IDict d) Hn (le_n _) Hd)
    as (g & Hg & Hdg).
  destruct (mapM_result_Ok_elem _ _ _ (padded n (IVal PNone) g) Hlines)
    as (s & Hs & Hin); [by apply list_elem_of_fmap_2 |].
  apply (occurs_trans _ s); [| by apply occurs_concat].
  unfold render_line in Hs.
  destruct (mapM (call_json_repr_to_html args)
              (List.filter item_truthy (padded n (IVal PNone) g)))
    as [frags|e] eqn:Hfrags; [| done].
  injection Hs as <-.
  destruct (mapM_result_Ok_elem _ _ _ (IDict d) Hfrags) as (frag & Hfrag & Hinf).
  - apply list_elem_of_In, filter_In. split.
    + apply list_elem_of_In. unfold padded. apply elem_of_app. by left.
    + cbn [item_truthy]. by rewrite bool_decide_eq_false_2.
  - injection Hfrag as <-. by apply occurs_concat.
Qed.

Section page_markup.
Context `{Libraries}.

(** C1, as the code has it: the text, the icon name and the URL of a
    record appear in its fragment exactly as [str()] prints them, a string
    as it is in the record, with no HTML escaping.  In a run that
    succeeds (with [K >= 1]) the fragment, and so the three values, are
    part of the markup that [main] hands to the page template as its one
    variable [buttons], wrapped in [Markup]: an autoescaping template
    prints that markup unchanged. *)
Theorem record_values_verbatim (d : gmap string pyval) (args : Namespace) (t i u : pyval) :
  d !! "text" = Some t →
  d !! "fa icon" = Some i →
  d !! "url" = Some u →
  (occurs (py_str t) (json_repr_to_html d args)
   ∧ occurs (py_str i) (json_repr_to_html d args)
   ∧ occurs (py_str u) (json_repr_to_html d args))
  ∧ (∀ fs fs' all_links,
       (1 ≤ max_button_per_line args)%Z →
       sum_links fs (infiles args) [] = Ok all_links →
       IDict d ∈ all_links →
       main args fs = (Ok (), fs') →
       ∃ html source tpl page,
         convert_links_to_html all_links args = Ok html
         ∧ occurs (json_repr_to_html d args) html
         ∧ (occurs (py_str t) html ∧ occurs (py_str i) html ∧ occurs (py_str u) html)
         ∧ page_variables html = [("buttons", TMarkup html)]
         ∧ autoescaped <$> (snd <$> page_variables html) = [html]
         ∧ read_file fs (path_join (template_dir args) "index.html") = Ok source
         ∧ Template source = Ok tpl
         ∧ render tpl (page_variables html) = Ok page
         ∧ files fs' !! path_join (outdir args) "index.html" = Some page).
Proof.
  intros Ht Hi Hu.
  pose proof (json_repr_to_html_occurs d args t i u Ht Hi Hu) as (Hot & Hoi & Hou).
  split; [done |].
  intros fs fs' all_links HK Hlinks Hd Hmain.
  destruct (main_Ok _ _ _ Hmain) as (links & html & fs1 & Hlinks' & Hhtml & Hpage & Hcss).
  rewrite Hlinks in Hlinks'. injection Hlinks' as <-.
  apply render_template_Ok in Hpage as (src & tpl & page & Hread & Htpl & Hrender & ->).
  apply render_template_Ok in Hcss as (_ & _ & sheet & _ & _ & _ & ->).
  assert (d ≠ ∅) as Hne by (intros ->; by rewrite lookup_empty in Ht).
  pose proof (convert_links_to_html_occurs _ _ _ _ HK Hhtml Hd Hne) as Hfrag.
  exists html, src, tpl, page.
  split; [done |]. split; [done |].
  split; [by repeat split; eapply occurs_trans |].
  split; [done |]. split; [done |]. split; [done |]. split; [done |]. split; [done |].
  rewrite put_file_other by (by apply page_path_not_css).
  cbn [put_file files]. by rewrite lookup_insert_eq.
Qed.
End page_markup.

Lemma record_values_verbatim_witness :
  let d := record_of "a<b" "home" "/x?p&q" in
  let args := parse_cli_defaults ["links.csv"] in
  let fs := {| files := <["links.csv" := "a<b,home,/x?p&q"]> Demo.templates;
               dirs := Demo.dirs3 |} in
  let fs' := (Demo.main args fs).2 in
  ∃ html source tpl page,
    convert_links_to_html [IDict d] args = Ok html
    ∧ occurs (json_repr_to_html d args) html
    ∧ (occurs "a<b" html ∧ occurs "home" html ∧ occurs "/x?p&q" html)
    ∧ page_variables html = [("buttons", TMarkup html)]
    ∧ autoescaped <$> (snd <$> page_variables html) = [html]
    ∧ read_file fs (path_join "templates/" "index.html") = Ok source
    ∧ @Template Demo.libs source = Ok tpl
    ∧ @render Demo.libs tpl (page_variables html) = Ok page
    ∧ files fs' !! path_join "out/" "index.html" = Some page.
Proof.
  intros d args fs fs'.
  apply (proj2 (@record_values_verbatim Demo.libs d args
                  (PStr "a<b") (PStr "home") (PStr "/x?p&q") eq_refl eq_refl eq_refl)
           fs fs' [IDict d]).
  - vm_compute. discriminate.
  - vm_compute. reflexivity.
  - by left.
  - vm_compute. reflexivity.
Defined.
